(** * cosmic-chaos: the multiplayer relay of [server.js]

    A shallow embedding of the WebSocket server ([server.js]): the player
    registry, the palette counter, the connection, message, close and error
    handlers, the periodic [syncGameState] and the two fan-out helpers.

    Conventions of the embedding.
    - A JavaScript value that reaches the server through [JSON.parse], or that
      the server builds before [JSON.stringify], is a [value].  Numbers are
      IEEE-754 doubles, taken from [SpecFloat.spec_float].
    - [players] is a JavaScript [Map]: an association list in insertion order
      whose [set] overwrites in place.
    - A handler runs to completion; it is a computation in the monad [M], which
      threads the server's [World] and may end in a thrown exception.
    - The transports are outside the program: a [Net] says, for each socket,
      whether its [readyState] is [OPEN] and whether [send] throws.  The outbox
      keeps each frame as the object handed to [JSON.stringify]; what its
      receiver reads is [on_the_wire] of it.
    - [Date.now()] is an argument [now] of each handler, in milliseconds.

    Left out: the HTTP routes, the per-connection ping timer, which touches
    neither the registry nor the palette counter, and the lines of
    [console.log].  Of the client's network module only the text that
    [sendChatMessage] sends is modelled. *)

From Stdlib Require Import List String Ascii Bool ZArith Lia.
From Stdlib Require Import Floats.SpecFloat.
Import ListNotations.
Local Open Scope string_scope.
Local Open Scope list_scope.
Local Open Scope Z_scope.

(** [a === b] on strings *)
Infix "=s" := String.eqb (at level 70, no associativity).

Set Implicit Arguments.
Set Warnings "-register-all".

(** ** JavaScript values *)

Module JS.

Inductive value : Type :=
| VUndefined
| VNull
| VBool (b : bool)
| VNum (f : spec_float)
| VStr (s : string)
| VArr (items : list value)
| VObj (props : list (string * value)).

(** The double nearest to an integer (binary64: 53 bits of precision,
    exponents below 1024), in canonical form. *)
Definition num_of_Z (z : Z) : spec_float := binary_normalize 53 1024 z 0 false.

Definition VInt (z : Z) : value := VNum (num_of_Z z).

(** [isNaN(x)] on a number. *)
Definition isNaN (f : spec_float) : bool :=
  match f with S754_nan => true | _ => false end.

(** [!!v]: undefined, null, false, +0, -0, NaN and the empty string are
    falsy, every other value is truthy. *)
Definition truthy (v : value) : bool :=
  match v with
  | VUndefined | VNull => false
  | VBool b => b
  | VNum (S754_zero _) | VNum S754_nan => false
  | VNum _ => true
  | VStr s => negb (s =s "")
  | VArr _ | VObj _ => true
  end.

(** [typeof v === 'number'] *)
Definition is_number (v : value) : bool :=
  match v with VNum _ => true | _ => false end.

(** [!isNaN(v)] for a [v] already known to be a number; on the other values
    the conjunction in the source has stopped at [typeof]. *)
Definition not_NaN (v : value) : bool :=
  match v with VNum f => negb (isNaN f) | _ => false end.

Fixpoint lookup (k : string) (props : list (string * value)) : option value :=
  match props with
  | [] => None
  | (k', v) :: rest => if k =s k' then Some v else lookup k rest
  end.

(** [v.k] for a [v] that is neither null nor undefined.  Only own data
    properties are modelled: an object's members, and [length] of a string or
    an array; every other read gives [undefined]. *)
Definition get (v : value) (k : string) : value :=
  match v with
  | VObj props => match lookup k props with Some x => x | None => VUndefined end
  | VStr s => if k =s "length" then VInt (Z.of_nat (String.length s)) else VUndefined
  | VArr l => if k =s "length" then VInt (Z.of_nat (List.length l)) else VUndefined
  | _ => VUndefined
  end.

(** [o[k] = v] on an object that the server builds from [{}].  The key
    [__proto__] is not a property of the object but the accessor of
    [Object.prototype]: the assignment goes to its setter, which replaces the
    prototype when [v] is an object or [null] and does nothing otherwise, and
    the object gains no property of its own. *)
Fixpoint obj_set (k : string) (v : value) (props : list (string * value))
  : list (string * value) :=
  if k =s "__proto__" then props
  else
    match props with
    | [] => [(k, v)]
    | (k', v') :: rest =>
        if k =s k' then (k, v) :: rest else (k', v') :: obj_set k v rest
    end.

(** The conversion of [v] to a string or to a number throws a TypeError.  For
    a value from [JSON.parse] that is so for an object with a member of its own
    named [toString] (which no JSON value can make callable, and whose
    [valueOf], inherited or not, gives no primitive), and for an array one of
    whose elements is such a value ([Array.prototype.join] converts every
    element but [null]). *)
Fixpoint conversion_throws (v : value) : bool :=
  match v with
  | VObj props => existsb (fun kv => fst kv =s "toString") props
  | VArr items => existsb conversion_throws items
  | _ => false
  end.

Definition keys (v : value) : list string :=
  match v with VObj props => map fst props | _ => [] end.

(** [v === undefined] *)
Definition is_undefined (v : value) : bool :=
  match v with VUndefined => true | _ => false end.

(** [JSON.parse(JSON.stringify(v))]: what the receiver reads of a value that
    the server sends.  [JSON.stringify] leaves out the members of an object
    whose value is [undefined] and writes [null] for an [undefined] element of
    an array and for a number that is not finite; [-0] is written [0].  The
    members stay in the order of the list. *)
Fixpoint on_the_wire (v : value) : value :=
  match v with
  | VNum S754_nan | VNum (S754_infinity _) => VNull
  | VNum (S754_zero _) => VNum (S754_zero false)
  | VArr items =>
      VArr (map (fun x => if is_undefined x then VNull else on_the_wire x) items)
  | VObj props =>
      VObj ((fix members (l : list (string * value)) : list (string * value) :=
               match l with
               | [] => []
               | (k, x) :: rest =>
                   if is_undefined x then members rest
                   else (k, on_the_wire x) :: members rest
               end) props)
  | _ => v
  end.

(** The members that [JSON.stringify] writes. *)
Definition members (l : list (string * value)) : list (string * value) :=
  map (fun kv => (fst kv, on_the_wire (snd kv)))
      (filter (fun kv => negb (is_undefined (snd kv))) l).

(** [a || b] *)
Definition or_else (a b : value) : value := if truthy a then a else b.

End JS.
Import JS.

(** ** Data validation ([isValidPosition], [isValidRotation]) *)

Definition isValidPosition (position : value) : bool :=
  if negb (truthy position) then false
  else
    is_number (get position "x") &&
    is_number (get position "y") &&
    is_number (get position "z") &&
    not_NaN (get position "x") &&
    not_NaN (get position "y") &&
    not_NaN (get position "z").

Definition isValidRotation (rotation : value) : bool :=
  if negb (truthy rotation) then false
  else
    is_number (get rotation "x") &&
    is_number (get rotation "y") &&
    is_number (get rotation "z") &&
    not_NaN (get rotation "x") &&
    not_NaN (get rotation "y") &&
    not_NaN (get rotation "z").

(** [{x, y, z}] *)
Definition vec3 (x y z : spec_float) : value :=
  VObj [("x", VNum x); ("y", VNum y); ("z", VNum z)].

(** [v > 200] for the operands whose conversion to a number needs no parsing:
    a number is compared as a double, [undefined] converts to NaN, [null] and
    the booleans to 0 or 1.  Strings, arrays and objects on the left (which
    [ToNumber] would first turn into text) are taken as not greater; the only
    caller is the length test of [broadcastChat] on a message that is not a
    string, where neither answer sends anything or touches the registry. *)
Definition gt_200 (v : value) : bool :=
  match v with
  | VNum f => SFltb (num_of_Z 200) f
  | _ => false
  end.

(** ** The server's state *)

(** [playerData].  [latency] is the property that the [pong] case adds:
    [None] while the object has no such property, [Some (t, v)] for the number
    [t - v], kept as the [Date.now()] and the [data.pingTime] it was computed
    from (converting [v] to a number would need the parsing of numeric
    strings). *)
Record Player : Type := mkPlayer {
  id : string;
  position : value;
  rotation : value;
  color : value;
  isAlienMode : value;
  landedPlanetId : value;
  lastUpdate : Z;
  socket : nat;
  pingTime : Z;
  latency : option (Z * value)
}.

Definition set_pose (pos rot : value) (now : Z) (p : Player) : Player :=
  mkPlayer (id p) pos rot (color p) (isAlienMode p) (landedPlanetId p)
           now (socket p) (pingTime p) (latency p).

Definition set_lastUpdate (now : Z) (p : Player) : Player :=
  mkPlayer (id p) (position p) (rotation p) (color p) (isAlienMode p)
           (landedPlanetId p) now (socket p) (pingTime p) (latency p).

Definition set_alien (mode planet : value) (p : Player) : Player :=
  mkPlayer (id p) (position p) (rotation p) (color p) mode planet
           (lastUpdate p) (socket p) (pingTime p) (latency p).

Definition set_latency (now : Z) (pingTime0 : value) (p : Player) : Player :=
  mkPlayer (id p) (position p) (rotation p) (color p) (isAlienMode p)
           (landedPlanetId p) (lastUpdate p) (socket p) (pingTime p)
           (Some (now, pingTime0)).

(** The [players] map: entries in insertion order. *)
Module Registry.

Definition t : Type := list (string * Player).

Fixpoint get (k : string) (r : t) : option Player :=
  match r with
  | [] => None
  | (k', p) :: rest => if k =s k' then Some p else get k rest
  end.

(** [players.set(k, p)]: an existing key keeps its place and takes the new
    value, a new key goes to the end. *)
Fixpoint set (k : string) (p : Player) (r : t) : t :=
  match r with
  | [] => [(k, p)]
  | (k', p') :: rest =>
      if k =s k' then (k, p) :: rest else (k', p') :: set k p rest
  end.

(** [players.delete(k)] *)
Definition delete (k : string) (r : t) : t :=
  filter (fun e => negb (k =s fst e)) r.

(** An assignment to a field of the object that [players.get(k)] returned. *)
Fixpoint update (k : string) (f : Player -> Player) (r : t) : t :=
  match r with
  | [] => []
  | (k', p) :: rest =>
      if k =s k' then (k', f p) :: rest else (k', p) :: update k f rest
  end.

Definition ids (r : t) : list string := map fst r.

End Registry.

(** What the process owns: the registry and the palette counter; and what it
    has done to the outside: the frames handed to [socket.send] that did not
    throw, each with its socket, in order, and the lines written with
    [console.error]. *)
Record World : Type := mkWorld {
  players : Registry.t;
  nextColorIndex : nat;
  outbox : list (nat * value);
  console : list string
}.

Definition initial : World := mkWorld [] 0 [] [].

Definition set_players (r : Registry.t) (w : World) : World :=
  mkWorld r (nextColorIndex w) (outbox w) (console w).

(** The transports, as the handler finds them. *)
Record Net : Type := mkNet {
  isOpen : nat -> bool;       (* [socket.readyState === WebSocket.OPEN] *)
  sendThrows : nat -> bool    (* [socket.send] raises *)
}.

(** ** Handlers as computations *)

Inductive outcome (A : Type) : Type :=
| Done (a : A)
| Thrown.
Arguments Thrown {A}.

Definition M (A : Type) : Type := World -> outcome A * World.

Definition ret {A} (a : A) : M A := fun w => (Done a, w).

Definition bind {A B} (m : M A) (k : A -> M B) : M B :=
  fun w => match m w with
           | (Done a, w') => k a w'
           | (Thrown, w') => (Thrown, w')
           end.

Definition throw {A} : M A := fun w => (Thrown, w).

(** [try { body } catch (e) { handler }]: what [body] did before it threw
    stays done. *)
Definition try_catch (body handler : M unit) : M unit :=
  fun w => match body w with
           | (Done a, w') => (Done a, w')
           | (Thrown, w') => handler w'
           end.

Definition gets {A} (f : World -> A) : M A := fun w => (Done (f w), w).
Definition modify (f : World -> World) : M unit := fun w => (Done tt, f w).

Declare Scope js_scope.
Delimit Scope js_scope with js.
Notation "x <- m ;; k" := (bind m (fun x => k))
  (at level 61, m at next level, right associativity) : js_scope.
Notation "m ;; k" := (bind m (fun _ => k))
  (at level 61, right associativity) : js_scope.
Local Open Scope js_scope.

Definition exec {A} (m : M A) (w : World) : World := snd (m w).
Definition result {A} (m : M A) (w : World) : outcome A := fst (m w).

Fixpoint forEach {A} (cb : A -> M unit) (l : list A) : M unit :=
  match l with
  | [] => ret tt
  | a :: rest => cb a ;; forEach cb rest
  end.

(** [players.forEach((player, id) => ...)].  No callback of the server
    inserts into the map or deletes an entry other than the one it is
    visiting, and none changes a field that a later visit reads, so the visits
    are those of the entries present when the loop starts. *)
Definition players_forEach (cb : Player -> string -> M unit) : M unit :=
  fun w => forEach (fun e => cb (snd e) (fst e)) (players w) w.

Definition console_error (line : string) : M unit :=
  modify (fun w => mkWorld (players w) (nextColorIndex w) (outbox w)
                           (console w ++ [line])).

(** [socket.send(JSON.stringify(data))].  The outbox keeps the object that was
    serialised. *)
Definition socket_send (net : Net) (ws : nat) (data : value) : M unit :=
  fun w => if sendThrows net ws then (Thrown, w)
           else (Done tt, mkWorld (players w) (nextColorIndex w)
                                  (outbox w ++ [(ws, data)]) (console w)).

(** ** Constants of [server.js] *)

Definition playerColors : list string :=
  ["#FF4136"; "#0074D9"; "#2ECC40"; "#FFDC00";
   "#B10DC9"; "#FF851B"; "#7FDBFF"; "#F012BE"].

Definition planet (pid : string) (x y z size : Z) (kind : string) : value :=
  VObj [("id", VStr pid);
        ("position", VObj [("x", VInt x); ("y", VInt y); ("z", VInt z)]);
        ("size", VInt size); ("type", VStr kind)].

Definition planets : value :=
  VArr [planet "p1" 1000 0 1000 50 "Rocky";
        planet "p2" (-1500) 200 (-800) 70 "Gaseous";
        planet "p3" 800 (-100) (-1200) 40 "Molten"].

Definition SYNC_RATE : Z := 100.

(** [const timeout = 30000] of [syncGameState] *)
Definition timeout : Z := 30000.

(** ** Sending *)

Definition sendToPlayer (net : Net) (ws : nat) (data : value) : M unit :=
  if isOpen net ws then socket_send net ws data else ret tt.

Definition broadcastToOthers (net : Net) (excludePlayerId : string)
    (data : value) : M unit :=
  players_forEach (fun player pid =>
    if negb (pid =s excludePlayerId) && isOpen net (socket player)
    then socket_send net (socket player) data
    else ret tt).

Definition broadcastToAll (net : Net) (data : value) : M unit :=
  try_catch
    (players_forEach (fun player _ =>
       try_catch
         (if isOpen net (socket player)
          then socket_send net (socket player) data
          else ret tt)
         (console_error ("Error sending to player " ++ id player)%string)))
    (console_error "Error in broadcastToAll").

(** ** Views of a player *)

Definition getPlayerDataForBroadcast (player : Player) : value :=
  VObj [("id", VStr (id player));
        ("position", position player);
        ("rotation", rotation player);
        ("color", color player);
        ("isAlienMode", isAlienMode player);
        ("landedPlanetId", landedPlanetId player)].

Definition getPlayersData (r : Registry.t) : value :=
  VObj (fold_left
          (fun playersData e =>
             obj_set (fst e) (getPlayerDataForBroadcast (snd e)) playersData)
          r []).

(** ** The connection handler *)

(** [urlParams.get('username') || generateId()]; [generated] is what
    [generateId()] returns when it is called. *)
Definition connection_id (username : option string) (generated : string)
  : string :=
  match username with
  | Some u => if truthy (VStr u) then u else generated
  | None => generated
  end.

Definition next_palette_color : M value :=
  n <- gets nextColorIndex ;;
  modify (fun w => mkWorld (players w)
                           (Nat.modulo (n + 1) (List.length playerColors))
                           (outbox w) (console w)) ;;
  ret (match nth_error playerColors n with
       | Some c => VStr c
       | None => VUndefined
       end).

(** [let playerColor = urlParams.get('color'); if (!playerColor) { ... }] *)
Definition assign_color (color : option string) : M value :=
  match color with
  | Some c => if truthy (VStr c) then ret (VStr c) else next_palette_color
  | None => next_palette_color
  end.

Definition spawn : value := VObj [("x", VInt 0); ("y", VInt 100); ("z", VInt 0)].
Definition no_rotation : value := VObj [("x", VInt 0); ("y", VInt 0); ("z", VInt 0)].

Definition connection (net : Net) (ws : nat) (username color : option string)
    (generated : string) (now : Z) : M unit :=
  let playerId := connection_id username generated in
  playerColor <- assign_color color ;;
  let playerData :=
    mkPlayer playerId spawn no_rotation playerColor (VBool false) VUndefined
             now ws 0 None in
  modify (fun w => set_players (Registry.set playerId playerData (players w)) w) ;;
  roster <- gets (fun w => getPlayersData (players w)) ;;
  sendToPlayer net ws
    (VObj [("type", VStr "init"); ("playerId", VStr playerId);
           ("playerColor", playerColor); ("players", roster);
           ("planets", planets)]) ;;
  broadcastToOthers net playerId
    (VObj [("type", VStr "playerJoined");
           ("player", getPlayerDataForBroadcast playerData)]).

(** ** The message handlers *)

Definition updatePlayerPosition (playerId : string) (data : value) (now : Z)
  : M unit :=
  try_catch
    (found <- gets (fun w => Registry.get playerId (players w)) ;;
     match found with
     | None => ret tt
     | Some _ =>
         if negb (isValidPosition (get data "position"))
            || negb (isValidRotation (get data "rotation"))
         then ret tt
         else modify (fun w =>
                set_players
                  (Registry.update playerId
                     (set_pose (get data "position") (get data "rotation") now)
                     (players w)) w)
     end)
    (console_error ("Error updating position for player " ++ playerId)%string).

Definition updatePlayerAlienMode (net : Net) (playerId : string) (data : value)
  : M unit :=
  found <- gets (fun w => Registry.get playerId (players w)) ;;
  match found with
  | None => ret tt
  | Some _ =>
      let planetId :=
        if truthy (get data "planetId") then get data "planetId" else VNull in
      modify (fun w =>
        set_players
          (Registry.update playerId (set_alien (get data "isAlienMode") planetId)
             (players w)) w) ;;
      broadcastToAll net
        (VObj [("type", VStr "playerAlienMode"); ("playerId", VStr playerId);
               ("isAlienMode", get data "isAlienMode");
               ("planetId", planetId)])
  end.

Definition bombPlaced (playerId : string) (data : value) : value :=
  VObj [("type", VStr "bombPlaced"); ("playerId", VStr playerId);
        ("planetId", get data "planetId");
        ("position", get data "position");
        ("countdown", or_else (get data "countdown") (VInt 10))].

Definition handleBombPlacement (net : Net) (playerId : string) (data : value)
  : M unit :=
  if negb (truthy (get data "planetId"))
     || negb (isValidPosition (get data "position"))
  then ret tt
  else broadcastToAll net (bombPlaced playerId data).

Definition handlePlanetDestruction (net : Net) (playerId : string)
    (planetId : value) : M unit :=
  if negb (truthy planetId) then ret tt
  else broadcastToAll net
         (VObj [("type", VStr "planetDestroyed"); ("playerId", VStr playerId);
                ("planetId", planetId)]).

(** [s.replace(/c/g, by)] for a one-character pattern.  A string is the
    sequence of its code units, [length] their number. *)
Fixpoint replace_all (c : ascii) (by_ : string) (s : string) : string :=
  match s with
  | EmptyString => EmptyString
  | String a rest =>
      if Ascii.eqb a c then (by_ ++ replace_all c by_ rest)%string
      else String a (replace_all c by_ rest)
  end.

Definition sanitize (message : string) : string :=
  replace_all ">" "&gt;" (replace_all "<" "&lt;" message).

Definition chatData (playerId : string) (player : Player) (text : string)
  : value :=
  VObj [("type", VStr "chat"); ("playerId", VStr playerId);
        ("playerColor", color player); ("message", VStr (sanitize text))].

(** The guard [!player || !message || message.length > 200] is evaluated on
    a string with its length as the integer it is.  A truthy message that is
    not a string and passes the guard has no [replace] method: the call
    throws a TypeError. *)
Definition broadcastChat (net : Net) (playerId : string) (message : value)
  : M unit :=
  found <- gets (fun w => Registry.get playerId (players w)) ;;
  match found with
  | None => ret tt
  | Some player =>
      match message with
      | VStr text =>
          if negb (truthy message) || (Z.of_nat (String.length text) >? 200)
          then ret tt
          else
            players_forEach (fun p _ =>
              if isOpen net (socket p)
              then try_catch
                     (socket_send net (socket p) (chatData playerId player text))
                     (console_error ("Error sending chat to player " ++ id p)%string)
              else ret tt)
      | _ =>
          if negb (truthy message) || gt_200 (get message "length")
          then ret tt
          else throw
      end
  end.

(** [data.type === t] *)
Definition type_is (data : value) (t : string) : bool :=
  match get data "type" with VStr s => s =s t | _ => false end.

(** [ws.on('message', ...)] of the connection that was given [playerId].
    [message] is what [JSON.parse] returns, [None] when it throws.  In the
    [pong] case [Date.now() - data.pingTime] converts [data.pingTime] to a
    number, which throws for what [conversion_throws] describes, before
    [player.latency] is stored.  In the default case the template literal of
    the [console.log] converts [data.type] to a string. *)
Definition onMessage (net : Net) (playerId : string) (message : option value)
    (now : Z) : M unit :=
  try_catch
    (match message with
     | None => throw
     | Some data =>
         modify (fun w =>
           set_players
             (Registry.update playerId (set_lastUpdate now) (players w)) w) ;;
         match data with
         | VNull | VUndefined => throw
         | _ =>
             if type_is data "updatePosition" then
               updatePlayerPosition playerId data now
             else if type_is data "alienMode" then
               updatePlayerAlienMode net playerId data
             else if type_is data "placeBomb" then
               handleBombPlacement net playerId data
             else if type_is data "planetDestroyed" then
               handlePlanetDestruction net playerId (get data "planetId")
             else if type_is data "chat" then
               broadcastChat net playerId (get data "message")
             else if type_is data "pong" then
               player <- gets (fun w => Registry.get playerId (players w)) ;;
               match player with
               | Some _ =>
                   if truthy (get data "pingTime") then
                     if conversion_throws (get data "pingTime") then throw
                     else
                       modify (fun w =>
                         set_players
                           (Registry.update playerId
                              (set_latency now (get data "pingTime"))
                              (players w)) w)
                   else ret tt
               | None => ret tt
               end
             else
               if conversion_throws (get data "type") then throw else ret tt
         end
     end)
    (console_error "Error processing message").

(** ** Disconnection *)

Definition playerLeft (playerId : string) : value :=
  VObj [("type", VStr "playerLeft"); ("playerId", VStr playerId)].

(** [ws.on('close', ...)] *)
Definition onClose (net : Net) (playerId : string) : M unit :=
  broadcastToAll net (playerLeft playerId) ;;
  modify (fun w => set_players (Registry.delete playerId (players w)) w).

(** [ws.on('error', ...)] *)
Definition onError (playerId : string) : M unit :=
  console_error ("WebSocket error for player " ++ playerId)%string ;;
  modify (fun w => set_players (Registry.delete playerId (players w)) w).

(** ** The periodic synchronisation *)

Definition snapshotEntry (player : Player) : value :=
  VObj [("id", VStr (id player));
        ("position", position player);
        ("rotation", rotation player);
        ("isAlienMode", isAlienMode player);
        ("landedPlanetId", landedPlanetId player)].

Definition snapshot (r : Registry.t) : value :=
  VObj (fold_left
          (fun playersData e => obj_set (fst e) (snapshotEntry (snd e)) playersData)
          r []).

Definition gameStateData (r : Registry.t) (now : Z) : value :=
  VObj [("type", VStr "gameState"); ("players", snapshot r);
        ("timestamp", VInt now)].

(** First loop of [syncGameState]: the timeout sweep. *)
Definition sweepTimeouts (net : Net) (now : Z) : M unit :=
  players_forEach (fun player pid =>
    if now - lastUpdate player >? timeout then
      modify (fun w => set_players (Registry.delete pid (players w)) w) ;;
      broadcastToAll net (playerLeft pid)
    else ret tt).

(** Third loop: the snapshot goes to every player. *)
Definition sendGameState (net : Net) (frame : value) : M unit :=
  players_forEach (fun player _ =>
    try_catch
      (if isOpen net (socket player)
       then socket_send net (socket player) frame
       else ret tt)
      (console_error ("Error sending game state to player " ++ id player)%string)).

(** Last loop: [player.lastUpdate = now] on each visited object whose last
    update is more than [SYNC_RATE * 2] old. *)
Definition refreshStationary (now : Z) (r : Registry.t) : Registry.t :=
  map (fun e => (fst e,
                 if now - lastUpdate (snd e) >? SYNC_RATE * 2
                 then set_lastUpdate now (snd e)
                 else snd e)) r.

Definition syncGameState (net : Net) (now : Z) : M unit :=
  try_catch
    (sweepTimeouts net now ;;
     gameState <- gets (fun w => gameStateData (players w) now) ;;
     sendGameState net gameState ;;
     modify (fun w => set_players (refreshStationary now (players w)) w))
    (console_error "Error in syncGameState").

(** ** The event loop *)

Inductive event : Type :=
| Connect (ws : nat) (username color : option string) (generated : string)
| Message (playerId : string) (message : option value)
| Close (playerId : string)
| Error (playerId : string)
| Tick.

(** One callback, run to completion at time [now] with the transports as
    [net] describes them. *)
Definition handle (net : Net) (now : Z) (ev : event) : M unit :=
  match ev with
  | Connect ws username color generated =>
      connection net ws username color generated now
  | Message playerId message => onMessage net playerId message now
  | Close playerId => onClose net playerId
  | Error playerId => onError playerId
  | Tick => syncGameState net now
  end.

(** The callbacks of a schedule, in order.  An exception that no [catch]
    stops ends the process: the later callbacks do not run. *)
Fixpoint run (schedule : list (Net * Z * event)) (w : World) : World :=
  match schedule with
  | [] => w
  | (net, now, ev) :: rest =>
      match handle net now ev w with
      | (Done _, w') => run rest w'
      | (Thrown, w') => w'
      end
  end.

(** ** Vocabulary of the statements *)

(** A send to [p] is attempted when its socket is open: it is delivered when
    [send] returns, it has failed when [send] throws. *)
Definition delivered (net : Net) (p : Player) : bool :=
  isOpen net (socket p) && negb (sendThrows net (socket p)).
Definition failed (net : Net) (p : Player) : bool :=
  isOpen net (socket p) && sendThrows net (socket p).

Definition deliveries (net : Net) (data : value) (r : Registry.t)
  : list (nat * value) :=
  map (fun e => (socket (snd e), data))
      (filter (fun e => delivered net (snd e)) r).

Definition complaints (net : Net) (prefix : string) (r : Registry.t)
  : list string :=
  map (fun e => (prefix ++ id (snd e))%string)
      (filter (fun e => failed net (snd e)) r).

(** The world after a fan-out of [data] over the entries [r]. *)
Definition fanned (net : Net) (data : value) (prefix : string)
    (r : Registry.t) (w : World) : World :=
  mkWorld (players w) (nextColorIndex w)
          (outbox w ++ deliveries net data r)
          (console w ++ complaints net prefix r).

(** A callback that guards one send with its own [try]/[catch]. *)
Definition guarded (net : Net) (data : value) (prefix : string)
    (cb : Player -> string -> M unit) : Prop :=
  forall p k w,
    cb p k w =
    (Done tt,
     if delivered net p
     then mkWorld (players w) (nextColorIndex w)
                  (outbox w ++ [(socket p, data)]) (console w)
     else if failed net p
     then mkWorld (players w) (nextColorIndex w) (outbox w)
                  (console w ++ [(prefix ++ id p)%string])
     else w).

(** [m] takes every world to one that [R] relates to it, whether it returns
    or throws. *)
Definition preserves {A} (R : World -> World -> Prop) (m : M A) : Prop :=
  forall w, R w (snd (m w)).

(** The registry and the palette counter are as they were. *)
Definition same_state (w w' : World) : Prop :=
  players w' = players w /\ nextColorIndex w' = nextColorIndex w.

(** The same ids are registered, in the same order, and the palette counter
    is as it was. *)
Definition same_ids (w w' : World) : Prop :=
  Registry.ids (players w') = Registry.ids (players w)
  /\ nextColorIndex w' = nextColorIndex w.

(** The registry after the first loop of [syncGameState] has visited the
    entries [l]. *)
Definition survivors (now : Z) (l r : Registry.t) : Registry.t :=
  fold_left
    (fun r e => if now - lastUpdate (snd e) >? timeout
                then Registry.delete (fst e) r else r)
    l r.

(** [!!urlParams.get(name)] *)
Definition supplied (param : option string) : bool :=
  match param with Some c => truthy (VStr c) | None => false end.

(** The entry has not timed out at [now]. *)
Definition timely (now : Z) (e : string * Player) : Prop :=
  now - lastUpdate (snd e) <= timeout.

(** [playerColors[n]] *)
Definition palette (n : nat) : value :=
  match nth_error playerColors n with
  | Some c => VStr c
  | None => VUndefined
  end.

(** The colour of a session created when the counter is [n]. *)
Definition assigned_color (color : option string) (n : nat) : value :=
  match color with
  | Some c => if truthy (VStr c) then VStr c else palette n
  | None => palette n
  end.

(** A vector as [isValidPosition] and [isValidRotation] accept it: [x], [y]
    and [z] are numbers and none of them is NaN. *)
Definition three_numbers (v : value) : Prop :=
  exists x y z,
    get v "x" = VNum x /\ get v "y" = VNum y /\ get v "z" = VNum z
    /\ isNaN x = false /\ isNaN y = false /\ isNaN z = false.

(** A finite double. *)
Definition is_finite (v : value) : bool :=
  match v with
  | VNum (S754_zero _) | VNum (S754_finite _ _ _) => true
  | _ => false
  end.

(** "Three finite numeric components", as the specification words the
    precondition of [updatePosition]. *)
Definition spec_three_finite (v : value) : bool :=
  is_finite (get v "x") && is_finite (get v "y") && is_finite (get v "z").

(** HTML escaping of the two angle brackets, one character at a time. *)
Fixpoint spec_escape (s : string) : string :=
  match s with
  | EmptyString => EmptyString
  | String c rest =>
      if Ascii.eqb c "<" then ("&lt;" ++ spec_escape rest)%string
      else if Ascii.eqb c ">" then ("&gt;" ++ spec_escape rest)%string
      else String c (spec_escape rest)
  end.

Fixpoint has_char (c : ascii) (s : string) : bool :=
  match s with
  | EmptyString => false
  | String a rest => Ascii.eqb a c || has_char c rest
  end.

(** White space of [String.prototype.trim] among the first 128 code units. *)
Definition is_space (c : ascii) : bool :=
  let n := nat_of_ascii c in
  (Nat.eqb n 32 || (Nat.leb 9 n && Nat.leb n 13))%bool.

Fixpoint trim_start (s : string) : string :=
  match s with
  | EmptyString => EmptyString
  | String c rest => if is_space c then trim_start rest else s
  end.

Fixpoint string_rev (s acc : string) : string :=
  match s with
  | EmptyString => acc
  | String c rest => string_rev rest (String c acc)
  end.

(** [s.trim()] *)
Definition spec_trim (s : string) : string :=
  string_rev (trim_start (string_rev (trim_start s) "")) "".

(** The relay condition of [chat] as the specification words it: non-empty
    and at most 200 characters after trim. *)
Definition spec_chat_relayed (text : string) : bool :=
  negb (spec_trim text =s "")
  && (Z.of_nat (String.length (spec_trim text)) <=? 200).

(** The relay condition of [broadcastChat] on a string. *)
Definition chat_relayed (text : string) : bool :=
  negb (text =s "") && (Z.of_nat (String.length text) <=? 200).

(** ** The heartbeat ([sendHeartbeat], every 5 s) *)

Definition heartbeat (now : Z) : value :=
  VObj [("type", VStr "heartbeat"); ("timestamp", VInt now)].

Definition sendHeartbeat (net : Net) (now : Z) : M unit :=
  players_forEach (fun player _ =>
    if isOpen net (socket player)
    then try_catch
           (socket_send net (socket player) (heartbeat now))
           (console_error ("Error sending heartbeat to player " ++ id player)%string)
    else ret tt).

(** ** More vocabulary *)

(** Every session but [pid]'s has the record it had, the same ids are
    registered and the palette counter is as it was. *)
Definition others_untouched (pid : string) (w w' : World) : Prop :=
  (forall k, k <> pid -> Registry.get k (players w') = Registry.get k (players w))
  /\ Registry.ids (players w') = Registry.ids (players w)
  /\ nextColorIndex w' = nextColorIndex w.

(** What a message cannot change in the sender's record; and a [lastUpdate]
    that is [now] stays [now]. *)
Definition same_session (pid : string) (now : Z) (w w' : World) : Prop :=
  forall p, Registry.get pid (players w) = Some p ->
    exists p', Registry.get pid (players w') = Some p'
               /\ id p' = id p /\ color p' = color p /\ socket p' = socket p
               /\ pingTime p' = pingTime p
               /\ (lastUpdate p = now -> lastUpdate p' = now).

(** A record as the connection handler makes it and every handler keeps it:
    filed under its own id, with a string for colour. *)
Definition well_kept (k : string) (q : Player) : Prop :=
  id q = k /\ exists c, color q = VStr c.

(** Frames were added to the outbox, all of them to sockets that are open. *)
Definition sent_to_open_only (net : Net) (w w' : World) : Prop :=
  exists extra,
    outbox w' = outbox w ++ extra
    /\ Forall (fun d => isOpen net (fst d) = true) extra.

(** The sessions other than [pid] that a fan-out without failures reaches. *)
Definition deliveries_to_others (net : Net) (pid : string) (data : value)
    (r : Registry.t) : list (nat * value) :=
  map (fun e => (socket (snd e), data))
      (filter (fun e => negb (fst e =s pid) && isOpen net (socket (snd e))) r).

(** The number of [c] in [s]. *)
Fixpoint count_char (c : ascii) (s : string) : nat :=
  match s with
  | EmptyString => O
  | String a rest => ((if Ascii.eqb a c then 1 else 0) + count_char c rest)%nat
  end.

(** The [init] frame of a connection. *)
Definition initFrame (playerId : string) (playerColor : value)
    (r : Registry.t) : value :=
  VObj [("type", VStr "init"); ("playerId", VStr playerId);
        ("playerColor", playerColor); ("players", getPlayersData r);
        ("planets", planets)].

(** The [playerJoined] frame for a record. *)
Definition playerJoined (player : Player) : value :=
  VObj [("type", VStr "playerJoined");
        ("player", getPlayerDataForBroadcast player)].

(** The record that a connection registers. *)
Definition newcomer (playerId : string) (playerColor : value) (now : Z)
    (ws : nat) : Player :=
  mkPlayer playerId spawn no_rotation playerColor (VBool false) VUndefined
           now ws 0 None.

(** A connection that leaves the colour to the server, over transports
    whose [send] does not throw. *)
Definition plain_connect (e : Net * Z * event) : Prop :=
  match e with
  | (net, _, Connect _ _ colour _) =>
      supplied colour = false /\ forall s, sendThrows net s = false
  | _ => False
  end.


(** A [pong], as the client answers a [ping]. *)
Definition pong (pingTime now : Z) : value :=
  VObj [("type", VStr "pong"); ("pingTime", VInt pingTime);
        ("timestamp", VInt now)].

(** The [playerAlienMode] frame. *)
Definition playerAlienMode (playerId : string) (mode planet : value) : value :=
  VObj [("type", VStr "playerAlienMode"); ("playerId", VStr playerId);
        ("isAlienMode", mode); ("planetId", planet)].

(** The [planetDestroyed] frame. *)
Definition planetDestroyed (playerId : string) (planetId : value) : value :=
  VObj [("type", VStr "planetDestroyed"); ("playerId", VStr playerId);
        ("planetId", planetId)].

(** [data.type] is none of the six that the [switch] has a case for. *)
Definition undispatched (data : value) : bool :=
  negb (type_is data "updatePosition") && negb (type_is data "alienMode")
  && negb (type_is data "placeBomb") && negb (type_is data "planetDestroyed")
  && negb (type_is data "chat") && negb (type_is data "pong").

(** Every session registered in [w], whose socket takes a send, has been sent
    the [playerLeft] of [pid]. *)
Definition told_of_departure (net : Net) (pid : string) (w : World) : Prop :=
  forall k q, Registry.get k (players w) = Some q ->
              delivered net q = true ->
              In (socket q, playerLeft pid) (outbox w).

(** The state after [console.error] has written [line]. *)
Definition logged (line : string) (w : World) : World :=
  mkWorld (players w) (nextColorIndex w) (outbox w) (console w ++ [line]).

(** The state after the message handler has refreshed [lastUpdate]. *)
Definition refreshed (playerId : string) (now : Z) (w : World) : World :=
  set_players (Registry.update playerId (set_lastUpdate now) (players w)) w.

(** A frame whose [type] cannot be converted to a string. *)
Definition unprintable_frame : value :=
  VObj [("type", VObj [("toString", VInt 1)])].

(** An [alienMode] message that lands on planet p2. *)
Definition landing : value :=
  VObj [("type", VStr "alienMode"); ("isAlienMode", VBool true);
        ("planetId", VStr "p2")].

(** ** The client's side of chat ([sendChatMessage] of the network module) *)

(** The frame that [sendChatMessage] hands to [sendToServer], [None] when it
    returns before.  [connected] stands for
    [gameState.multiplayer.enabled && gameState.multiplayer.socket]; [trim] is
    [String.prototype.trim]. *)
Definition sendChatMessage (trim : string -> string) (connected : bool)
    (message : string) : option value :=
  if negb connected then None
  else if negb (truthy (VStr message)) || (trim message =s "") then None
  else
    let truncatedMessage := substring 0 200 (trim message) in
    Some (VObj [("type", VStr "chat"); ("message", VStr truncatedMessage)]).

(** A valid [updatePosition]. *)
Definition move_to_123 : value :=
  VObj [("type", VStr "updatePosition");
        ("position", vec3 (num_of_Z 1) (num_of_Z 2) (num_of_Z 3));
        ("rotation", vec3 (num_of_Z 0) (num_of_Z 0) (num_of_Z 0))].

(** ** Scenarios *)

(** Every socket open and taking what it is sent. *)
Definition all_open : Net := mkNet (fun _ => true) (fun _ => false).

(** Every socket open; [send] on socket 1 throws. *)
Definition first_fails : Net := mkNet (fun _ => true) (fun ws => Nat.eqb ws 1).

(** Socket 1 has closed; the others are open. *)
Definition first_closed : Net :=
  mkNet (fun ws => negb (Nat.eqb ws 1)) (fun _ => false).

(** A on socket 1, then B on socket 2, both at time 0, both named by their
    [username] parameter and coloured by the server. *)
Definition two_players : World :=
  run [(all_open, 0, Connect 1 (Some "A") None "");
       (all_open, 0, Connect 2 (Some "B") None "")] initial.

(** Two connections ask for the same [username]. *)
Definition alice_twice : World :=
  run [(all_open, 0, Connect 1 (Some "alice") None "");
       (all_open, 10, Connect 2 (Some "alice") None "")] initial.

(** B keeps talking and the loop of [syncGameState] stalls for 40 s: its
    sweep finds A timed out. *)
Definition stalled_tick : World :=
  run [(all_open, 39990, Message "B" (Some (VObj [("type", VStr "pong")])));
       (first_closed, 40000, Tick)] two_players.

(** Then A's socket closes. *)
Definition late_close : World :=
  run [(first_closed, 40010, Close "A")] stalled_tick.

(** An [updatePosition] whose [position.x] is [Infinity], as [JSON.parse]
    reads [1e999]. *)
Definition infinite_pose : value :=
  VObj [("type", VStr "updatePosition");
        ("position", vec3 (S754_infinity false) (num_of_Z 2) (num_of_Z 3));
        ("rotation", vec3 (num_of_Z 0) (num_of_Z 0) (num_of_Z 0))].

(** A [chat] whose message is one space. *)
Definition blank_chat : value :=
  VObj [("type", VStr "chat"); ("message", VStr " ")].

(** A [placeBomb] that supplies a countdown of 0. *)
Definition bomb_now : value :=
  VObj [("type", VStr "placeBomb"); ("planetId", VStr "p1");
        ("position", vec3 (num_of_Z 0) (num_of_Z 0) (num_of_Z 0));
        ("countdown", VInt 0)].

(** A's record in [two_players]. *)
Definition player_A : Player :=
  mkPlayer "A" spawn no_rotation (VStr "#FF4136") (VBool false) VUndefined 0 1 0
           None.

(** Eight connections that leave the colour to the server. *)
Definition eight_connects : list (Net * Z * event) :=
  map (fun n => (all_open, 0, Connect n None None "guest"))
      [1; 2; 3; 4; 5; 6; 7; 8]%nat.

(** A client asks for the [username] [__proto__]; B connects after it. *)
Definition proto_player : World :=
  run [(all_open, 0, Connect 1 (Some "__proto__") None "");
       (all_open, 0, Connect 2 (Some "B") None "")] initial.

(** [n] runs of [syncGameState], [SYNC_RATE] apart, the first one at
    [start + SYNC_RATE]. *)
Fixpoint ticks (net : Net) (start : Z) (n : nat) : list (Net * Z * event) :=
  match n with
  | O => []
  | S n' => (net, start + SYNC_RATE, Tick) :: ticks net (start + SYNC_RATE) n'
  end.

(** [frame.type === t] *)
Definition has_type (t : string) (frame : value) : bool := type_is frame t.

(** The frames that went to socket [ws]. *)
Definition received (ws : nat) (w : World) : list value :=
  map snd (filter (fun d => Nat.eqb (fst d) ws) (outbox w)).

(** * Properties *)

(** ** Running a computation *)

Lemma bind_Done {A B} (m : M A) (k : A -> M B) w a w' :
  m w = (Done a, w') -> bind m k w = k a w'.
Proof. unfold bind. now intros ->. Qed.

Lemma bind_Thrown {A B} (m : M A) (k : A -> M B) w w' :
  m w = (Thrown, w') -> bind m k w = (Thrown, w').
Proof. unfold bind. now intros ->. Qed.

Lemma bind_modify {B} f (k : unit -> M B) w : bind (modify f) k w = k tt (f w).
Proof. reflexivity. Qed.

Lemma bind_gets {A B} (f : World -> A) (k : A -> M B) w :
  bind (gets f) k w = k (f w) w.
Proof. reflexivity. Qed.

Lemma bind_ret {A B} (a : A) (k : A -> M B) w : bind (ret a) k w = k a w.
Proof. reflexivity. Qed.

Lemma try_catch_Done body handler w a w' :
  body w = (Done a, w') -> try_catch body handler w = (Done a, w').
Proof. unfold try_catch. now intros ->. Qed.

Lemma try_catch_Thrown body handler w w' :
  body w = (Thrown, w') -> try_catch body handler w = handler w'.
Proof. unfold try_catch. now intros ->. Qed.

(** ** Fan-out *)

Section FanOut.

Variable net : Net.

Lemma fanned_nil data prefix w : fanned net data prefix [] w = w.
Proof.
  destruct w; unfold fanned, deliveries, complaints; simpl.
  now rewrite !app_nil_r.
Qed.

Lemma forEach_guarded data prefix cb (r : Registry.t) :
  guarded net data prefix cb ->
  forall w, forEach (fun e => cb (snd e) (fst e)) r w
            = (Done tt, fanned net data prefix r w).
Proof.
  intros Hcb. induction r as [|[k p] r IH]; intros w.
  - simpl. unfold ret. now rewrite fanned_nil.
  - simpl. unfold bind. rewrite Hcb. simpl. rewrite IH.
    unfold fanned, deliveries, complaints, delivered, failed. simpl.
    destruct (isOpen net (socket p)), (sendThrows net (socket p)); simpl;
      rewrite <- ?app_assoc; reflexivity.
Qed.

Lemma guarded_send_inner data prefix :
  guarded net data prefix (fun player _ =>
    try_catch
      (if isOpen net (socket player)
       then socket_send net (socket player) data
       else ret tt)
      (console_error (prefix ++ id player)%string)).
Proof.
  intros p k w. unfold try_catch, socket_send, console_error, modify, ret,
    delivered, failed.
  destruct (isOpen net (socket p)), (sendThrows net (socket p));
    simpl; try reflexivity.
Qed.

Lemma guarded_send_outer data prefix :
  guarded net data prefix (fun player _ =>
    if isOpen net (socket player)
    then try_catch (socket_send net (socket player) data)
                   (console_error (prefix ++ id player)%string)
    else ret tt).
Proof.
  intros p k w. unfold try_catch, socket_send, console_error, modify, ret,
    delivered, failed.
  destruct (isOpen net (socket p)), (sendThrows net (socket p));
    simpl; try reflexivity.
Qed.

(** [broadcastToAll] never throws; every open socket is tried, in the order of
    the registry, and each failure costs one line on the console. *)
Lemma broadcastToAll_fans data w :
  broadcastToAll net data w
  = (Done tt, fanned net data "Error sending to player " (players w) w).
Proof.
  pose proof (forEach_guarded (players w)
                (guarded_send_inner data "Error sending to player ") w) as H.
  unfold broadcastToAll. apply try_catch_Done. exact H.
Qed.

Lemma sendGameState_fans frame w :
  sendGameState net frame w
  = (Done tt,
     fanned net frame "Error sending game state to player " (players w) w).
Proof.
  pose proof (forEach_guarded (players w)
                (guarded_send_inner frame "Error sending game state to player ")
                w) as H.
  exact H.
Qed.

End FanOut.

(** ** The registry *)

Module RegistryFacts.
Import Registry.

Lemma get_In k p (r : t) : get k r = Some p -> In (k, p) r.
Proof.
  induction r as [|[k' p'] r IH]; simpl; [discriminate|].
  destruct (k =s k') eqn:E.
  - apply String.eqb_eq in E. intros [= ->]. subst. now left.
  - intros H. right. now apply IH.
Qed.

Lemma In_get k p (r : t) : NoDup (ids r) -> In (k, p) r -> get k r = Some p.
Proof.
  induction r as [|[k' p'] r IH]; simpl; [easy|].
  intros Hnd [H|H]; inversion Hnd as [|? ? Hni Hnd']; subst.
  - injection H as -> ->. now rewrite String.eqb_refl.
  - destruct (k =s k') eqn:E.
    + apply String.eqb_eq in E. subst. exfalso. apply Hni.
      change k' with (fst (k', p)). now apply in_map.
    + now apply IH.
Qed.

Lemma get_None_notin k (r : t) : get k r = None <-> ~ In k (ids r).
Proof.
  induction r as [|[k' p'] r IH]; simpl; [tauto|].
  destruct (k =s k') eqn:E.
  - apply String.eqb_eq in E. subst. split; [discriminate | tauto].
  - apply String.eqb_neq in E. rewrite IH. intuition congruence.
Qed.

Lemma delete_absent k (r : t) : get k r = None -> delete k r = r.
Proof.
  induction r as [|[k' p'] r IH]; simpl; [easy|].
  destruct (k =s k') eqn:E; [discriminate|]. simpl.
  intros H. now rewrite IH.
Qed.

Lemma get_delete k (r : t) : get k (delete k r) = None.
Proof.
  induction r as [|[k' p'] r IH]; simpl; [easy|].
  destruct (k =s k') eqn:E; simpl; [assumption|]. now rewrite E.
Qed.

Lemma get_delete_other k k' (r : t) :
  k <> k' -> get k' (delete k r) = get k' r.
Proof.
  intros Hne. induction r as [|[k0 p0] r IH]; simpl; [easy|].
  destruct (k =s k0) eqn:E; simpl.
  - apply String.eqb_eq in E. subst k0.
    destruct (k' =s k) eqn:E'; [|assumption].
    apply String.eqb_eq in E'. congruence.
  - now rewrite IH.
Qed.

Lemma ids_delete k (r : t) :
  ids (delete k r) = filter (fun k' => negb (k =s k')) (ids r).
Proof.
  induction r as [|[k' p'] r IH]; simpl; [easy|].
  destruct (k =s k'); simpl; now rewrite <- IH.
Qed.

Lemma NoDup_filter {A} (f : A -> bool) (l : list A) :
  NoDup l -> NoDup (filter f l).
Proof.
  induction 1 as [|a l Hni Hnd IH]; simpl; [constructor|].
  destruct (f a); [|assumption].
  constructor; [|assumption]. rewrite filter_In. tauto.
Qed.

Lemma NoDup_delete k (r : t) : NoDup (ids r) -> NoDup (ids (delete k r)).
Proof. rewrite ids_delete. apply NoDup_filter. Qed.

Lemma ids_update k f (r : t) : ids (update k f r) = ids r.
Proof.
  induction r as [|[k' p'] r IH]; simpl; [easy|].
  destruct (k =s k'); simpl; [reflexivity|]. now rewrite IH.
Qed.

Lemma get_update k f (r : t) :
  get k (update k f r) = option_map f (get k r).
Proof.
  induction r as [|[k' p'] r IH]; simpl; [easy|].
  destruct (k =s k') eqn:E; simpl; now rewrite E.
Qed.

Lemma In_ids_set k k' p (r : t) :
  In k' (ids (set k p r)) <-> k' = k \/ In k' (ids r).
Proof.
  induction r as [|[k0 p0] r IH]; simpl; [intuition|].
  destruct (k =s k0) eqn:E; simpl.
  - apply String.eqb_eq in E. subst. intuition.
  - rewrite IH. intuition.
Qed.

Lemma NoDup_set k p (r : t) : NoDup (ids r) -> NoDup (ids (set k p r)).
Proof.
  induction r as [|[k0 p0] r IH]; simpl; intros Hnd.
  - constructor; [easy|constructor].
  - inversion Hnd as [|? ? Hni Hnd']; subst.
    destruct (k =s k0) eqn:E; simpl.
    + apply String.eqb_eq in E. subst. now constructor.
    + apply String.eqb_neq in E. constructor; [|now apply IH].
      rewrite In_ids_set. intuition.
Qed.

Lemma get_set k p (r : t) : get k (set k p r) = Some p.
Proof.
  induction r as [|[k0 p0] r IH]; simpl.
  - now rewrite String.eqb_refl.
  - destruct (k =s k0) eqn:E; simpl.
    + now rewrite String.eqb_refl.
    + now rewrite E.
Qed.

End RegistryFacts.

(** ** What a handler leaves alone *)

Section Preservation.

Variable R : World -> World -> Prop.
Hypothesis R_refl : forall w, R w w.
Hypothesis R_trans : forall w1 w2 w3, R w1 w2 -> R w2 w3 -> R w1 w3.

Lemma preserves_ret {A} (a : A) : preserves R (ret a).
Proof. intros w. apply R_refl. Qed.

Lemma preserves_throw {A} : preserves R (@throw A).
Proof. intros w. apply R_refl. Qed.

Lemma preserves_gets {A} (f : World -> A) : preserves R (gets f).
Proof. intros w. apply R_refl. Qed.

Lemma preserves_bind {A B} (m : M A) (k : A -> M B) :
  preserves R m -> (forall a, preserves R (k a)) -> preserves R (bind m k).
Proof.
  intros Hm Hk w. unfold bind. specialize (Hm w).
  destruct (m w) as [[a|] w1]; simpl in *; [|assumption].
  eapply R_trans; [exact Hm | apply Hk].
Qed.

Lemma preserves_try_catch body handler :
  preserves R body -> preserves R handler -> preserves R (try_catch body handler).
Proof.
  intros Hb Hh w. unfold try_catch. specialize (Hb w).
  destruct (body w) as [[a|] w1]; simpl in *; [assumption|].
  eapply R_trans; [exact Hb | apply Hh].
Qed.

Lemma preserves_forEach {A} (cb : A -> M unit) (l : list A) :
  (forall a, preserves R (cb a)) -> preserves R (forEach cb l).
Proof.
  intros Hcb. induction l as [|a l IH]; simpl.
  - apply preserves_ret.
  - apply preserves_bind; [apply Hcb | intros _; exact IH].
Qed.

Lemma preserves_players_forEach cb :
  (forall p k, preserves R (cb p k)) -> preserves R (players_forEach cb).
Proof.
  intros Hcb w. unfold players_forEach.
  apply (preserves_forEach (fun e => cb (snd e) (fst e))). intros e. apply Hcb.
Qed.

Lemma preserves_if {A} (b : bool) (m1 m2 : M A) :
  preserves R m1 -> preserves R m2 -> preserves R (if b then m1 else m2).
Proof. now destruct b. Qed.

End Preservation.

Lemma same_state_refl w : same_state w w.
Proof. now split. Qed.

Lemma same_state_trans w1 w2 w3 :
  same_state w1 w2 -> same_state w2 w3 -> same_state w1 w3.
Proof. unfold same_state. intros [-> ->] [-> ->]. now split. Qed.

Lemma same_ids_refl w : same_ids w w.
Proof. now split. Qed.

Lemma same_ids_trans w1 w2 w3 :
  same_ids w1 w2 -> same_ids w2 w3 -> same_ids w1 w3.
Proof. unfold same_ids. intros [-> ->] [-> ->]. now split. Qed.

Lemma same_state_ids w w' : same_state w w' -> same_ids w w'.
Proof. unfold same_state, same_ids. intros [-> ->]. now split. Qed.

Lemma talk_keeps_ids {A} (m : M A) : preserves same_state m -> preserves same_ids m.
Proof. intros H w. apply same_state_ids, H. Qed.

Lemma quiet_socket_send net ws data : preserves same_state (socket_send net ws data).
Proof. intros w. unfold socket_send. now destruct (sendThrows net ws). Qed.

Lemma quiet_console_error line : preserves same_state (console_error line).
Proof. now intros w. Qed.

Lemma quiet_sendToPlayer net ws data : preserves same_state (sendToPlayer net ws data).
Proof.
  unfold sendToPlayer. apply preserves_if;
    [apply quiet_socket_send | apply preserves_ret, same_state_refl].
Qed.

Lemma quiet_broadcastToOthers net pid data :
  preserves same_state (broadcastToOthers net pid data).
Proof.
  apply preserves_players_forEach;
    [apply same_state_refl | apply same_state_trans |].
  intros p k. apply preserves_if;
    [apply quiet_socket_send | apply preserves_ret, same_state_refl].
Qed.

Lemma quiet_broadcastToAll net data :
  preserves same_state (broadcastToAll net data).
Proof. intros w. now rewrite broadcastToAll_fans. Qed.

(** ** The timeout sweep *)

Section Sweep.

Variable net : Net.
Variable now : Z.

Lemma sweep_spares_the_timely (l : Registry.t) w :
  Forall (timely now) l ->
  forEach (fun e =>
    (fun (player : Player) (pid : string) =>
       if now - lastUpdate player >? timeout then
         modify (fun w => set_players (Registry.delete pid (players w)) w) ;;
         broadcastToAll net (playerLeft pid)
       else ret tt) (snd e) (fst e)) l w = (Done tt, w).
Proof.
  induction 1 as [|e l He _ IH]; simpl; [reflexivity|].
  unfold timely in He.
  destruct (now - lastUpdate (snd e) >? timeout) eqn:E; [lia|].
  unfold bind, ret at 1. exact IH.
Qed.

Lemma sweepTimeouts_idle w :
  Forall (timely now) (players w) -> sweepTimeouts net now w = (Done tt, w).
Proof. intros H. unfold sweepTimeouts, players_forEach. now apply sweep_spares_the_timely. Qed.

Lemma syncGameState_idle w :
  Forall (timely now) (players w) ->
  syncGameState net now w =
  (Done tt,
   set_players (refreshStationary now (players w))
     (fanned net (gameStateData (players w) now)
             "Error sending game state to player " (players w) w)).
Proof.
  intros H. unfold syncGameState. apply try_catch_Done.
  erewrite bind_Done by (apply sweepTimeouts_idle; assumption).
  unfold bind at 1, gets.
  erewrite bind_Done by apply sendGameState_fans.
  reflexivity.
Qed.

Lemma sweep_loop (l : Registry.t) : forall w, exists w',
  forEach (fun e =>
    (fun (player : Player) (pid : string) =>
       if now - lastUpdate player >? timeout then
         modify (fun w => set_players (Registry.delete pid (players w)) w) ;;
         broadcastToAll net (playerLeft pid)
       else ret tt) (snd e) (fst e)) l w = (Done tt, w')
  /\ players w' = survivors now l (players w)
  /\ nextColorIndex w' = nextColorIndex w.
Proof.
  induction l as [|e l IH]; intros w; simpl.
  - exists w. now repeat split.
  - destruct (now - lastUpdate (snd e) >? timeout) eqn:E.
    + unfold bind at 1. unfold bind at 1, modify at 1.
      rewrite broadcastToAll_fans.
      match goal with |- context [forEach _ l ?w1] =>
        destruct (IH w1) as (w' & Hrun & Hplayers & Hcounter) end.
      exists w'. rewrite Hrun, Hplayers, Hcounter. now repeat split.
    + unfold bind at 1, ret at 1.
      destruct (IH w) as (w' & Hrun & Hplayers & Hcounter).
      exists w'. now repeat split.
Qed.

Lemma sweepTimeouts_returns w : exists w',
  sweepTimeouts net now w = (Done tt, w')
  /\ players w' = survivors now (players w) (players w)
  /\ nextColorIndex w' = nextColorIndex w.
Proof. apply sweep_loop. Qed.

(** [syncGameState] always returns: the sweep, then the snapshot of the
    survivors to each of them, then the refresh. *)
Lemma syncGameState_runs w :
  syncGameState net now w =
  (Done tt,
   let swept := exec (sweepTimeouts net now) w in
   set_players (refreshStationary now (players swept))
     (fanned net (gameStateData (players swept) now)
             "Error sending game state to player " (players swept) swept)).
Proof.
  destruct (sweepTimeouts_returns w) as (w1 & Hrun & _).
  unfold syncGameState, exec. apply try_catch_Done.
  erewrite bind_Done by exact Hrun. rewrite Hrun. simpl.
  unfold bind at 1, gets.
  erewrite bind_Done by apply sendGameState_fans.
  reflexivity.
Qed.

Lemma refreshStationary_ids r :
  Registry.ids (refreshStationary now r) = Registry.ids r.
Proof. unfold refreshStationary, Registry.ids. rewrite map_map. reflexivity. Qed.

Lemma refreshStationary_recent r :
  Forall (fun e => now - lastUpdate (snd e) <= SYNC_RATE * 2)
         (refreshStationary now r).
Proof.
  unfold refreshStationary. apply Forall_map, Forall_forall. intros e _.
  cbn [snd fst]. unfold SYNC_RATE.
  destruct (now - lastUpdate (snd e) >? 100 * 2) eqn:E;
    cbn [lastUpdate set_lastUpdate]; lia.
Qed.

End Sweep.

(** ** Regular ticks *)

Lemma no_playerLeft_in_gameState net r now (rs : Registry.t) :
  existsb (has_type "playerLeft")
          (map snd (deliveries net (gameStateData r now) rs)) = false.
Proof.
  unfold deliveries. induction (filter (fun e => delivered net (snd e)) rs)
    as [|e l IH]; simpl; [reflexivity|exact IH].
Qed.

(** While [syncGameState] runs every [SYNC_RATE], its last loop keeps every
    [lastUpdate] within [SYNC_RATE * 2] of the clock, so its first loop finds
    nobody to evict. *)
Lemma regular_ticks_evict_nobody net n : forall start w,
  Forall (fun e => start - lastUpdate (snd e) <= SYNC_RATE * 2) (players w) ->
  Registry.ids (players (run (ticks net start n) w)) = Registry.ids (players w)
  /\ existsb (has_type "playerLeft") (map snd (outbox (run (ticks net start n) w)))
     = existsb (has_type "playerLeft") (map snd (outbox w)).
Proof.
  induction n as [|n IH]; intros start w Hrecent; simpl; [now split|].
  assert (Htimely : Forall (timely (start + SYNC_RATE)) (players w)).
  { eapply Forall_impl; [|exact Hrecent]. intros e He.
    unfold timely, timeout. unfold SYNC_RATE in *. lia. }
  rewrite (@syncGameState_idle net _ _ Htimely).
  match goal with
  | |- context [run _ ?w1] =>
      destruct (IH (start + SYNC_RATE) w1) as [Hids Hout]
  end.
  { simpl. apply refreshStationary_recent. }
  rewrite Hids, Hout. simpl. rewrite refreshStationary_ids. split; [reflexivity|].
  rewrite map_app, existsb_app, no_playerLeft_in_gameState.
  apply orb_false_r.
Qed.

(** C1, at the code: two clients connect at time 0 and send nothing; after any
    number [n] of runs of [syncGameState], 100 ms apart (311 of them take the
    clock past 31 s), both sessions are still registered and no [playerLeft]
    frame has been sent to anyone.  The refresh at the end of each run defeats
    the 30 s timeout of the sweep at its start. *)
Theorem silent_session_is_never_evicted : forall net n,
  Registry.ids (players (run (ticks net 0 n) two_players)) = ["A"; "B"]
  /\ existsb (has_type "playerLeft")
             (map snd (outbox (run (ticks net 0 n) two_players))) = false.
Proof.
  intros net n.
  destruct (@regular_ticks_evict_nobody net n 0 two_players) as [Hids Hout].
  { repeat constructor; vm_compute; discriminate. }
  rewrite Hids, Hout. split; vm_compute; reflexivity.
Qed.

(** ** Colliding ids *)

(** C2, at the code: a second connection asks for the [username] of a session
    whose socket is still open.  [players.set] puts the new record in the old
    one's place: the registry has one entry, it holds socket 2, and socket 1
    is in no entry although it is open.  When socket 1 closes later, its
    handler deletes the entry of socket 2. *)
Theorem colliding_username_overwrites_open_session :
  option_map socket
    (Registry.get "alice"
       (players (run [(all_open, 0, Connect 1 (Some "alice") None "")] initial)))
  = Some 1%nat
  /\ isOpen all_open 1 = true
  /\ Registry.ids (players alice_twice) = ["alice"]
  /\ option_map socket (Registry.get "alice" (players alice_twice)) = Some 2%nat
  /\ existsb (fun e => Nat.eqb (socket (snd e)) 1) (players alice_twice) = false
  /\ players (exec (handle first_closed 20 (Close "alice")) alice_twice) = [].
Proof. repeat split; vm_compute; reflexivity. Qed.

(** ** Fan-out without a [catch] *)

(** C3, at the code: A and B are connected and A's socket starts to throw on
    [send].  [broadcastToOthers] has no [try]: the exception of the send to A
    leaves the loop, so B is never tried, and the connection handler of the
    newcomer C ends with it.  [broadcastToAll], on the same registry, logs A's
    failure and reaches B. *)
Theorem broadcastToOthers_stops_at_first_failure :
  broadcastToOthers first_fails "C" (playerLeft "Z") two_players
  = (Thrown, two_players)
  /\ result (handle first_fails 5 (Connect 3 (Some "C") None "")) two_players
     = Thrown
  /\ received 2 (exec (handle first_fails 5 (Connect 3 (Some "C") None ""))
                      two_players)
     = received 2 two_players
  /\ received 2 (exec (broadcastToAll first_fails (playerLeft "Z")) two_players)
     = received 2 two_players ++ [playerLeft "Z"]
  /\ console (exec (broadcastToAll first_fails (playerLeft "Z")) two_players)
     = ["Error sending to player A"].
Proof. repeat split; vm_compute; reflexivity. Qed.

(** ** Departures *)

(** The [close] handler removes the session and announces it to whoever is
    registered and reachable. *)
Lemma onClose_removes_and_announces net pid w :
  result (onClose net pid) w = Done tt
  /\ Registry.get pid (players (exec (onClose net pid) w)) = None
  /\ outbox (exec (onClose net pid) w)
     = outbox w ++ deliveries net (playerLeft pid) (players w).
Proof.
  unfold result, exec, onClose.
  erewrite bind_Done by apply broadcastToAll_fans.
  cbn [fst snd modify players set_players fanned outbox].
  repeat split. apply RegistryFacts.get_delete.
Qed.

(** The [error] handler by itself deletes the session and sends nothing.  The
    [close] handler and the sweep, on the same two players, delete A and send
    B a [playerLeft]. *)
Lemma onError_removes_and_is_silent :
  Registry.ids (players (exec (handle first_closed 5 (Error "A")) two_players))
  = ["B"]
  /\ outbox (exec (handle first_closed 5 (Error "A")) two_players)
     = outbox two_players
  /\ Registry.ids (players (exec (handle first_closed 5 (Close "A")) two_players))
     = ["B"]
  /\ received 2 (exec (handle first_closed 5 (Close "A")) two_players)
     = received 2 two_players ++ [playerLeft "A"]
  /\ Registry.ids (players stalled_tick) = ["B"]
  /\ filter (has_type "playerLeft") (received 2 stalled_tick)
     = [playerLeft "A"].
Proof. repeat split; vm_compute; reflexivity. Qed.

(** ** Who survives a sweep *)

Section Survivors.

Variable now : Z.

Lemma survivors_NoDup (l : Registry.t) : forall r,
  NoDup (Registry.ids r) -> NoDup (Registry.ids (survivors now l r)).
Proof.
  induction l as [|e l IH]; intros r Hr; simpl; [assumption|].
  apply IH. destruct (now - lastUpdate (snd e) >? timeout);
    [now apply RegistryFacts.NoDup_delete | assumption].
Qed.

Lemma survivors_keep (l : Registry.t) pid p : forall r,
  Registry.get pid r = Some p ->
  (forall e, In e l -> fst e = pid -> timely now e) ->
  Registry.get pid (survivors now l r) = Some p.
Proof.
  induction l as [|e l IH]; intros r Hget Hl; simpl; [assumption|].
  apply IH; [|intros e' He'; apply Hl; now right].
  destruct (now - lastUpdate (snd e) >? timeout) eqn:E; [|assumption].
  destruct (String.eqb_spec (fst e) pid) as [Heq|Hne].
  - specialize (Hl e (or_introl eq_refl) Heq). unfold timely in Hl. lia.
  - now rewrite RegistryFacts.get_delete_other.
Qed.

Lemma survivors_of_registry r pid p :
  NoDup (Registry.ids r) ->
  Registry.get pid r = Some p ->
  timely now (pid, p) ->
  Registry.get pid (survivors now r r) = Some p.
Proof.
  intros Hnd Hget Htimely. apply survivors_keep; [assumption|].
  intros [k q] Hin Hk. simpl in Hk. subst k.
  apply RegistryFacts.In_get in Hin; [congruence | assumption].
Qed.

End Survivors.

(** ** The connection handler *)

Lemma assign_color_runs color w :
  assign_color color w
  = (Done (assigned_color color (nextColorIndex w)),
     if supplied color then w
     else mkWorld (players w)
                  (Nat.modulo (nextColorIndex w + 1) (List.length playerColors))
                  (outbox w) (console w)).
Proof.
  unfold assign_color, assigned_color, supplied.
  destruct color as [c|]; [destruct (truthy (VStr c))|]; reflexivity.
Qed.

(** The registry and the counter after a connection, whether or not its
    sends went through. *)
Lemma connection_state net ws username color generated now w :
  players (exec (connection net ws username color generated now) w)
  = Registry.set (connection_id username generated)
      (mkPlayer (connection_id username generated) spawn no_rotation
                (assigned_color color (nextColorIndex w))
                (VBool false) VUndefined now ws 0 None)
      (players w)
  /\ nextColorIndex (exec (connection net ws username color generated now) w)
     = if supplied color then nextColorIndex w
       else Nat.modulo (nextColorIndex w + 1) (List.length playerColors).
Proof.
  unfold connection, exec.
  erewrite bind_Done by apply assign_color_runs.
  rewrite bind_modify, bind_gets.
  match goal with |- context [bind ?m ?k ?w2] =>
    assert (Hq : preserves same_state (bind m k)) end.
  { apply preserves_bind;
      [apply same_state_trans | apply quiet_sendToPlayer
       | intros _; apply quiet_broadcastToOthers]. }
  match goal with |- context [bind ?m ?k ?w2] =>
    destruct (Hq w2) as [Hp2 Hc2] end.
  rewrite Hp2, Hc2. simpl. now destruct (supplied color).
Qed.

(** Whatever was registered under the id, and whatever the state of its
    socket, the entry holds the newcomer's socket afterwards. *)
Lemma connection_takes_the_entry net ws username colour generated now w :
  option_map socket
    (Registry.get (connection_id username generated)
       (players (exec (connection net ws username colour generated now) w)))
  = Some ws.
Proof.
  destruct (connection_state net ws username colour generated now w) as [-> _].
  now rewrite RegistryFacts.get_set.
Qed.

(** ** The snapshot *)

Lemma obj_set_proto v props : obj_set "__proto__" v props = props.
Proof. destruct props as [|[k' v'] props]; reflexivity. Qed.

Lemma lookup_obj_set_same k v props :
  k <> "__proto__" -> lookup k (obj_set k v props) = Some v.
Proof.
  intros Hk. apply String.eqb_neq in Hk.
  induction props as [|[k' v'] props IH]; cbn [obj_set]; rewrite Hk.
  - cbn. now rewrite String.eqb_refl.
  - destruct (k =s k') eqn:E; cbn [lookup];
      [now rewrite String.eqb_refl | now rewrite E].
Qed.

Lemma lookup_obj_set_other k k' v props :
  k <> k' -> lookup k' (obj_set k v props) = lookup k' props.
Proof.
  intros Hne. destruct (String.eqb_spec k "__proto__") as [->|Hk].
  { now rewrite obj_set_proto. }
  apply String.eqb_neq in Hk.
  induction props as [|[k0 v0] props IH]; cbn [obj_set]; rewrite Hk.
  - cbn. destruct (String.eqb_spec k' k); [congruence | reflexivity].
  - destruct (String.eqb_spec k k0); cbn [lookup].
    + subst k0. destruct (String.eqb_spec k' k); [congruence | reflexivity].
    + now rewrite IH.
Qed.

Lemma snapshot_fold (view : Player -> value) (r : Registry.t) :
  NoDup (Registry.ids r) ->
  forall acc pid,
    lookup pid (fold_left (fun playersData e =>
                             obj_set (fst e) (view (snd e)) playersData) r acc)
    = match Registry.get pid r with
      | Some p => if pid =s "__proto__" then lookup pid acc else Some (view p)
      | None => lookup pid acc
      end.
Proof.
  induction r as [|[k p] r IH]; intros Hnd acc pid; simpl; [reflexivity|].
  inversion Hnd as [|? ? Hni Hnd']; subst. rewrite (IH Hnd').
  destruct (String.eqb_spec pid k) as [->|Hne].
  - apply RegistryFacts.get_None_notin in Hni. rewrite Hni.
    destruct (String.eqb_spec k "__proto__") as [->|Hk].
    + now rewrite obj_set_proto.
    + now apply lookup_obj_set_same.
  - rewrite lookup_obj_set_other by congruence. reflexivity.
Qed.

Lemma snapshot_entry r pid :
  NoDup (Registry.ids r) ->
  get (snapshot r) pid
  = match Registry.get pid r with
    | Some p => if pid =s "__proto__" then VUndefined else snapshotEntry p
    | None => VUndefined
    end.
Proof.
  intros Hnd. unfold snapshot, get.
  rewrite (@snapshot_fold snapshotEntry r Hnd).
  destruct (Registry.get pid r); [destruct (pid =s "__proto__")|]; reflexivity.
Qed.

Lemma In_keys_obj_set k k0 v props :
  In k (map fst (obj_set k0 v props))
  <-> In k (map fst props) \/ (k = k0 /\ k0 <> "__proto__").
Proof.
  destruct (String.eqb_spec k0 "__proto__") as [->|Hk].
  { rewrite obj_set_proto. intuition congruence. }
  pose proof Hk as Hk'. apply String.eqb_neq in Hk'.
  induction props as [|[k' v'] props IH]; cbn [obj_set]; rewrite Hk'.
  - cbn. intuition congruence.
  - destruct (String.eqb_spec k0 k') as [->|Hne]; cbn [map fst In].
    + intuition congruence.
    + rewrite IH. intuition congruence.
Qed.

(** The keys of a roster or snapshot: the registered ids but [__proto__]. *)
Lemma In_keys_fold (view : Player -> value) (r : Registry.t) : forall acc k,
  In k (map fst (fold_left (fun playersData e =>
                              obj_set (fst e) (view (snd e)) playersData) r acc))
  <-> In k (map fst acc) \/ (In k (Registry.ids r) /\ k <> "__proto__").
Proof.
  induction r as [|[k0 p0] r IH]; intros acc k; cbn [fold_left fst snd].
  - cbn. tauto.
  - rewrite IH, In_keys_obj_set. cbn [Registry.ids map fst In].
    fold (Registry.ids r). intuition congruence.
Qed.

(** C8, at the code: a client connects with [?username=__proto__], B connects
    after it, and [syncGameState] runs 100 ms later.  Both sessions are
    registered before and after the run and both are sent the [gameState]
    frame, but [playersData['__proto__'] = ...] sets the prototype of
    [playersData] and adds no property: the [players] map of that frame has
    the one key [B]. *)
Theorem proto_session_is_missing_from_snapshot :
  Registry.ids (players proto_player) = ["__proto__"; "B"]
  /\ Registry.ids (players (exec (handle all_open 100 Tick) proto_player))
     = ["__proto__"; "B"]
  /\ map (fun frame => keys (get frame "players"))
         (filter (has_type "gameState")
                 (received 2 (exec (handle all_open 100 Tick) proto_player)))
     = [["B"]]
  /\ map (fun frame => keys (get frame "players"))
         (filter (has_type "gameState")
                 (received 1 (exec (handle all_open 100 Tick) proto_player)))
     = [["B"]].
Proof. repeat split; vm_compute; reflexivity. Qed.

(** ** What [JSON.stringify] keeps *)

Lemma on_the_wire_VObj props : on_the_wire (VObj props) = VObj (members props).
Proof.
  cbn [on_the_wire]. f_equal. unfold members.
  induction props as [|[k x] rest IH]; [reflexivity|].
  cbn [filter map fst snd].
  destruct (is_undefined x); cbn [negb map fst snd]; now rewrite IH.
Qed.

Lemma on_the_wire_undefined v :
  is_undefined (on_the_wire v) = is_undefined v.
Proof. destruct v as [| | |[]| | |]; reflexivity. Qed.

(** A member is read from the wire as it was written, and a member that was
    [undefined] is read as [undefined]: it is not there. *)
Lemma lookup_members k props :
  NoDup (map fst props) ->
  match lookup k (members props) with Some x => x | None => VUndefined end
  = on_the_wire
      (match lookup k props with Some x => x | None => VUndefined end).
Proof.
  unfold members. induction props as [|[k0 x] rest IH]; intros Hnd;
    [reflexivity|].
  inversion Hnd as [|? ? Hni Hnd']; subst.
  cbn [filter lookup fst snd].
  destruct (is_undefined x) eqn:Hx; cbn [negb map lookup fst snd].
  - destruct (k =s k0) eqn:E; [|now apply IH].
    apply String.eqb_eq in E. subst k0. destruct x; try discriminate.
    cbn [on_the_wire].
    assert (Hnone : forall l, ~ In k (map fst l) ->
              lookup k (map (fun kv => (fst kv, on_the_wire (snd kv)))
                            (filter (fun kv => negb (is_undefined (snd kv))) l))
              = None).
    { induction l as [|[k1 x1] l IHl]; intros Hl; [reflexivity|].
      cbn [filter fst snd].
      assert (Hk1 : (k =s k1) = false).
      { apply String.eqb_neq. intros ->. apply Hl. now left. }
      assert (Hrest : ~ In k (map fst l)) by (intros H; apply Hl; now right).
      destruct (is_undefined x1); cbn [negb map lookup fst snd];
        rewrite ?Hk1; now apply IHl. }
    now rewrite (Hnone rest Hni).
  - destruct (k =s k0); [reflexivity | now apply IH].
Qed.

Lemma get_on_the_wire props k :
  NoDup (map fst props) ->
  get (on_the_wire (VObj props)) k = on_the_wire (get (VObj props) k).
Proof. intros Hnd. rewrite on_the_wire_VObj. now apply lookup_members. Qed.

Lemma keys_on_the_wire props :
  keys (on_the_wire (VObj props))
  = map fst (filter (fun kv => negb (is_undefined (snd kv))) props).
Proof.
  rewrite on_the_wire_VObj. unfold keys, members. rewrite map_map.
  reflexivity.
Qed.

Lemma lookup_In k x props :
  NoDup (map fst props) -> In (k, x) props -> lookup k props = Some x.
Proof.
  induction props as [|[k0 x0] rest IH]; intros Hnd Hin; [easy|].
  inversion Hnd as [|? ? Hni Hnd']; subst. cbn [lookup].
  destruct Hin as [[= -> ->]|Hin]; [now rewrite String.eqb_refl|].
  destruct (String.eqb_spec k k0) as [->|Hne]; [|now apply IH].
  exfalso. apply Hni. apply (in_map fst) in Hin. exact Hin.
Qed.

Lemma In_keys_on_the_wire props k :
  NoDup (map fst props) ->
  In k (keys (on_the_wire (VObj props)))
  <-> In k (keys (VObj props)) /\ get (VObj props) k <> VUndefined.
Proof.
  intros Hnd. rewrite keys_on_the_wire. unfold keys, get.
  rewrite !in_map_iff. split.
  - intros ([k0 x] & <- & Hin). apply filter_In in Hin.
    destruct Hin as [Hin Hdef]. cbn [fst snd] in *.
    split; [exists (k0, x); now split|].
    rewrite (@lookup_In _ _ _ Hnd Hin). intros ->. discriminate.
  - intros [([k0 x] & <- & Hin) Hdef]. exists (k0, x).
    split; [reflexivity|]. apply filter_In. split; [assumption|].
    cbn [fst snd] in *. rewrite (@lookup_In _ _ _ Hnd Hin) in Hdef.
    destruct x; try reflexivity. congruence.
Qed.

(** A roster or snapshot has its ids without repetition, and an object under
    each of them. *)
Lemma fold_obj_set_NoDup k v props :
  NoDup (map fst props) -> NoDup (map fst (obj_set k v props)).
Proof.
  intros Hnd. destruct (String.eqb_spec k "__proto__") as [->|Hk];
    [now rewrite obj_set_proto|].
  induction props as [|[k0 v0] rest IH].
  - unfold obj_set. apply String.eqb_neq in Hk. rewrite Hk.
    repeat constructor. easy.
  - inversion Hnd as [|? ? Hni Hnd']; subst.
    cbn [obj_set]. pose proof Hk as Hk'. apply String.eqb_neq in Hk'.
    rewrite Hk'. destruct (String.eqb_spec k k0) as [->|Hne]; cbn [map fst].
    + now constructor.
    + constructor; [|now apply IH].
      rewrite In_keys_obj_set. intros [Hin|[-> _]]; [easy | congruence].
Qed.

Lemma snapshot_NoDup (view : Player -> value) (r : Registry.t) : forall acc,
  NoDup (map fst acc) ->
  NoDup (map fst (fold_left (fun playersData e =>
                               obj_set (fst e) (view (snd e)) playersData)
                            r acc)).
Proof.
  induction r as [|[k p] r IH]; intros acc Hacc; cbn [fold_left fst snd];
    [assumption|].
  apply IH. now apply fold_obj_set_NoDup.
Qed.

Lemma obj_set_defined k v props :
  is_undefined v = false ->
  forallb (fun kv => negb (is_undefined (snd kv))) props = true ->
  forallb (fun kv => negb (is_undefined (snd kv))) (obj_set k v props) = true.
Proof.
  intros Hv Hall. destruct (String.eqb_spec k "__proto__") as [->|Hk];
    [now rewrite obj_set_proto|].
  apply String.eqb_neq in Hk.
  induction props as [|[k0 v0] rest IH]; cbn [obj_set]; rewrite Hk.
  - cbn. now rewrite Hv.
  - cbn [forallb snd] in Hall. apply andb_true_iff in Hall.
    destruct Hall as [H0 Hrest].
    destruct (k =s k0); cbn [forallb snd].
    + now rewrite Hv, Hrest.
    + rewrite H0. now apply IH.
Qed.

Lemma snapshot_defined (view : Player -> value) (r : Registry.t) :
  (forall p, is_undefined (view p) = false) ->
  forall acc,
    forallb (fun kv => negb (is_undefined (snd kv))) acc = true ->
    forallb (fun kv => negb (is_undefined (snd kv)))
            (fold_left (fun playersData e =>
                          obj_set (fst e) (view (snd e)) playersData) r acc)
    = true.
Proof.
  intros Hview. induction r as [|[k p] r IH]; intros acc Hacc;
    cbn [fold_left fst snd]; [assumption|].
  apply IH. now apply obj_set_defined.
Qed.

Lemma filter_all {A} (f : A -> bool) (l : list A) :
  forallb f l = true -> filter f l = l.
Proof.
  induction l as [|a l IH]; [reflexivity|]. cbn [forallb filter].
  intros H. apply andb_true_iff in H. destruct H as [Ha Hl].
  now rewrite Ha, IH.
Qed.

(** The [players] map of a [gameState] frame as its receiver reads it: the
    same keys, and under each the entry as its receiver reads it. *)
Lemma snapshot_on_the_wire (r : Registry.t) now pid :
  keys (get (on_the_wire (gameStateData r now)) "players") = keys (snapshot r)
  /\ get (get (on_the_wire (gameStateData r now)) "players") pid
     = on_the_wire (get (snapshot r) pid).
Proof.
  assert (Hmap : get (on_the_wire (gameStateData r now)) "players"
                 = on_the_wire (snapshot r)).
  { unfold gameStateData. rewrite get_on_the_wire; [reflexivity|].
    cbn. repeat constructor; cbn; intuition discriminate. }
  rewrite Hmap. unfold snapshot. split.
  - rewrite keys_on_the_wire, filter_all; [reflexivity|].
    now apply snapshot_defined.
  - apply get_on_the_wire. apply snapshot_NoDup. constructor.
Qed.

(** The sessions that a sweep leaves, and their entries in the snapshot. *)
Lemma swept_keeps_the_timely net now w pid p :
  NoDup (Registry.ids (players w)) ->
  Registry.get pid (players w) = Some p ->
  now - lastUpdate p <= timeout ->
  Registry.get pid (players (exec (sweepTimeouts net now) w)) = Some p.
Proof.
  intros Hnd Hget Hfresh.
  destruct (sweepTimeouts_returns net now w) as (w1 & Hrun & Hplayers & _).
  unfold exec. rewrite Hrun. cbn [snd]. rewrite Hplayers.
  now apply survivors_of_registry.
Qed.

Lemma swept_NoDup net now w :
  NoDup (Registry.ids (players w)) ->
  NoDup (Registry.ids (players (exec (sweepTimeouts net now) w))).
Proof.
  intros Hnd.
  destruct (sweepTimeouts_returns net now w) as (w1 & Hrun & Hplayers & _).
  unfold exec. rewrite Hrun. cbn [snd]. rewrite Hplayers.
  now apply survivors_NoDup.
Qed.

Lemma swept_entry net now w pid p :
  NoDup (Registry.ids (players w)) ->
  pid <> "__proto__" ->
  Registry.get pid (players (exec (sweepTimeouts net now) w)) = Some p ->
  get (snapshot (players (exec (sweepTimeouts net now) w))) pid
  = snapshotEntry p.
Proof.
  intros Hnd Hpid Hget.
  rewrite snapshot_entry by now apply swept_NoDup.
  rewrite Hget. apply String.eqb_neq in Hpid. now rewrite Hpid.
Qed.

Lemma connected_is_registered net ws username colour generated now w :
  Registry.get (connection_id username generated)
    (players (exec (connection net ws username colour generated now) w))
  = Some (newcomer (connection_id username generated)
                   (assigned_color colour (nextColorIndex w)) now ws).
Proof.
  destruct (connection_state net ws username colour generated now w)
    as [Hreg _].
  rewrite Hreg. apply RegistryFacts.get_set.
Qed.

Lemma snapshotEntry_keys p :
  NoDup (map fst [("id", VStr (id p)); ("position", position p);
                  ("rotation", rotation p); ("isAlienMode", isAlienMode p);
                  ("landedPlanetId", landedPlanetId p)]).
Proof. cbn. repeat constructor; cbn; intuition discriminate. Qed.

(** X25: The [gameState] frame of a run of [syncGameState] is built from the
    sessions that its sweep left in the registry, which are the sessions
    registered when the run ends, and goes to each of them whose socket takes
    it.  The keys of its [players] map are the ids of those sessions but
    [__proto__].  Under the id of each such session the server puts an object
    with exactly the keys [id], [position], [rotation], [isAlienMode] and
    [landedPlanetId], holding the values of the record.  A session whose last
    update is at most 30 s old is among those sessions; so is one whose
    connection handler ran just before, at most 30 s earlier, and its entry
    has its id, the spawn position, no rotation, and no planet. *)
Theorem gameState_lists_every_other_session net now w :
  NoDup (Registry.ids (players w)) ->
  let swept := exec (sweepTimeouts net now) w in
  let frame := gameStateData (players swept) now in
  let w' := exec (syncGameState net now) w in
  Registry.ids (players w') = Registry.ids (players swept)
  /\ outbox w' = outbox swept ++ deliveries net frame (players swept)
  /\ (forall k, In k (keys (get frame "players"))
                <-> In k (Registry.ids (players swept)) /\ k <> "__proto__")
  /\ (forall pid p,
        pid <> "__proto__" ->
        Registry.get pid (players swept) = Some p ->
        let entry := get (get frame "players") pid in
        keys entry
        = ["id"; "position"; "rotation"; "isAlienMode"; "landedPlanetId"]
        /\ get entry "id" = VStr (id p)
        /\ get entry "position" = position p
        /\ get entry "rotation" = rotation p
        /\ get entry "isAlienMode" = isAlienMode p
        /\ get entry "landedPlanetId" = landedPlanetId p)
  /\ (forall pid p,
        Registry.get pid (players w) = Some p ->
        now - lastUpdate p <= timeout ->
        Registry.get pid (players swept) = Some p)
  /\ (forall net0 ws username colour generated t0 w0,
        w = exec (connection net0 ws username colour generated t0) w0 ->
        now - t0 <= timeout ->
        connection_id username generated <> "__proto__" ->
        let entry := get (get frame "players")
                         (connection_id username generated) in
        In (connection_id username generated) (keys (get frame "players"))
        /\ get entry "id" = VStr (connection_id username generated)
        /\ get entry "position" = spawn
        /\ get entry "rotation" = no_rotation
        /\ get entry "isAlienMode" = VBool false
        /\ get entry "landedPlanetId" = VUndefined).
Proof.
  intros Hnd swept frame w'.
  assert (Hkeys : forall k,
            In k (keys (get frame "players"))
            <-> In k (Registry.ids (players swept)) /\ k <> "__proto__").
  { intros k. change (get frame "players") with (snapshot (players swept)).
    unfold snapshot, keys. rewrite In_keys_fold. cbn [map In]. tauto. }
  unfold w', exec. rewrite syncGameState_runs. fold swept. cbn [snd].
  split; [cbn [players set_players]; apply refreshStationary_ids|].
  split; [reflexivity|].
  split; [exact Hkeys|].
  split.
  { intros pid p Hpid Hget. cbn zeta.
    change (get frame "players") with (snapshot (players swept)).
    unfold swept. rewrite (@swept_entry net now w _ _ Hnd Hpid Hget). now repeat split. }
  split; [intros pid p; now apply swept_keeps_the_timely|].
  intros net0 ws username colour generated t0 w0 Hw Hrecent Hpid.
  pose proof (connected_is_registered net0 ws username colour generated t0 w0)
    as Hme.
  unfold exec in Hme. rewrite <- Hw in Hme.
  apply (@swept_keeps_the_timely net now w _ _ Hnd) in Hme; [|exact Hrecent].
  fold swept in Hme. cbn zeta. split.
  { apply Hkeys. split; [|assumption].
    apply RegistryFacts.get_In in Hme. apply (in_map fst) in Hme. exact Hme. }
  change (get frame "players") with (snapshot (players swept)).
  unfold swept. rewrite (@swept_entry net now w _ _ Hnd Hpid Hme). now repeat split.
Qed.

Lemma gameState_lists_every_other_session_witness :
  NoDup (Registry.ids (players two_players))
  /\ forall k,
       In k (keys (get (gameStateData
                          (players (exec (sweepTimeouts all_open 100)
                                         two_players)) 100) "players"))
       <-> In k (Registry.ids
                   (players (exec (sweepTimeouts all_open 100) two_players)))
           /\ k <> "__proto__".
Proof.
  assert (H : NoDup (Registry.ids (players two_players))).
  { vm_compute. repeat constructor; simpl; intuition discriminate. }
  split; [exact H|].
  exact (proj1 (proj2 (proj2
           (@gameState_lists_every_other_session all_open 100 two_players H)))).
Defined.

(** X27: What the receiver of a [gameState] frame reads.  [JSON.stringify]
    keeps every key of the [players] map, and under the id of a session other
    than [__proto__] the receiver reads the values that the server put there,
    under those of the five keys whose value is not [undefined]:
    [landedPlanetId] is on the wire once the record has one.  The entry of a
    session that connected at most 30 s before the run is read with the four
    keys [id], [position], [rotation] and [isAlienMode]. *)
Theorem gameState_entry_on_the_wire net now w :
  NoDup (Registry.ids (players w)) ->
  let swept := exec (sweepTimeouts net now) w in
  let frame := gameStateData (players swept) now in
  keys (get (on_the_wire frame) "players") = keys (get frame "players")
  /\ (forall pid p,
        pid <> "__proto__" ->
        Registry.get pid (players swept) = Some p ->
        let entry := get (get frame "players") pid in
        let read := get (get (on_the_wire frame) "players") pid in
        read = on_the_wire entry
        /\ get read "id" = VStr (id p)
        /\ get read "position" = on_the_wire (position p)
        /\ get read "rotation" = on_the_wire (rotation p)
        /\ get read "isAlienMode" = on_the_wire (isAlienMode p)
        /\ get read "landedPlanetId" = on_the_wire (landedPlanetId p)
        /\ (forall k, In k (keys read)
                      <-> In k (keys entry) /\ get entry k <> VUndefined)
        /\ (In "landedPlanetId" (keys read)
            <-> landedPlanetId p <> VUndefined))
  /\ (forall net0 ws username colour generated t0 w0,
        w = exec (connection net0 ws username colour generated t0) w0 ->
        now - t0 <= timeout ->
        connection_id username generated <> "__proto__" ->
        let read := get (get (on_the_wire frame) "players")
                        (connection_id username generated) in
        keys read = ["id"; "position"; "rotation"; "isAlienMode"]
        /\ get read "id" = VStr (connection_id username generated)
        /\ get read "position" = spawn
        /\ get read "rotation" = no_rotation
        /\ get read "isAlienMode" = VBool false).
Proof.
  intros Hnd swept frame.
  assert (Hread : forall pid p,
            pid <> "__proto__" ->
            Registry.get pid (players swept) = Some p ->
            get (get frame "players") pid = snapshotEntry p
            /\ get (get (on_the_wire frame) "players") pid
               = on_the_wire (snapshotEntry p)).
  { intros pid p Hpid Hget. unfold frame.
    rewrite (proj2 (snapshot_on_the_wire (players swept) now pid)).
    change (get (gameStateData (players swept) now) "players")
      with (snapshot (players swept)).
    unfold swept. now rewrite (@swept_entry net now w _ _ Hnd Hpid Hget). }
  split; [exact (proj1 (snapshot_on_the_wire (players swept) now ""))|].
  split.
  { intros pid p Hpid Hget. cbn zeta.
    destruct (Hread pid p Hpid Hget) as [-> ->].
    split; [reflexivity|]. unfold snapshotEntry.
    rewrite !get_on_the_wire by apply snapshotEntry_keys.
    repeat (split; [reflexivity|]).
    assert (Hin : forall k,
              In k (keys (on_the_wire
                            (VObj [("id", VStr (id p));
                                   ("position", position p);
                                   ("rotation", rotation p);
                                   ("isAlienMode", isAlienMode p);
                                   ("landedPlanetId", landedPlanetId p)])))
              <-> In k (keys (VObj [("id", VStr (id p));
                                    ("position", position p);
                                    ("rotation", rotation p);
                                    ("isAlienMode", isAlienMode p);
                                    ("landedPlanetId", landedPlanetId p)]))
                  /\ get (VObj [("id", VStr (id p));
                                ("position", position p);
                                ("rotation", rotation p);
                                ("isAlienMode", isAlienMode p);
                                ("landedPlanetId", landedPlanetId p)]) k
                     <> VUndefined).
    { intros k. apply In_keys_on_the_wire, snapshotEntry_keys. }
    split; [exact Hin|].
    rewrite Hin. cbn [keys map fst In get lookup].
    cbn. intuition. }
  intros net0 ws username colour generated t0 w0 Hw Hrecent Hpid.
  pose proof (connected_is_registered net0 ws username colour generated t0 w0)
    as Hme.
  rewrite <- Hw in Hme.
  apply (@swept_keeps_the_timely net now w _ _ Hnd) in Hme; [|exact Hrecent].
  fold swept in Hme. cbn zeta.
  destruct (Hread _ _ Hpid Hme) as [_ ->]. now repeat split.
Qed.

Lemma gameState_entry_on_the_wire_witness :
  NoDup (Registry.ids (players two_players))
  /\ keys (get (on_the_wire
                  (gameStateData
                     (players (exec (sweepTimeouts all_open 100) two_players))
                     100)) "players")
     = keys (get (gameStateData
                    (players (exec (sweepTimeouts all_open 100) two_players))
                    100) "players").
Proof.
  assert (H : NoDup (Registry.ids (players two_players))).
  { vm_compute. repeat constructor; simpl; intuition discriminate. }
  split; [exact H|].
  exact (proj1 (@gameState_entry_on_the_wire all_open 100 two_players H)).
Defined.

(** A and B connect and [syncGameState] runs 100 ms later: both are
    registered, and the entry of A that socket 1 reads in the [gameState]
    frame has four keys.  [landedPlanetId], which the record of A does not
    have yet, is not on the wire. *)
Lemma fresh_entry_has_no_landedPlanetId :
  map (fun frame => keys (get (get (on_the_wire frame) "players") "A"))
      (filter (has_type "gameState")
              (received 1 (exec (handle all_open 100 Tick) two_players)))
  = [["id"; "position"; "rotation"; "isAlienMode"]]
  /\ Registry.ids (players (exec (handle all_open 100 Tick) two_players))
     = ["A"; "B"].
Proof. split; vm_compute; reflexivity. Qed.

(** ** The palette counter *)

(** C10 fails for a [color] parameter that is present and empty: the server
    assigns the palette colour and the counter advances. *)
Lemma empty_color_parameter_advances_counter :
  nextColorIndex initial = 0%nat
  /\ nextColorIndex
       (exec (connection all_open 1 (Some "A") (Some "") "" 0) initial) = 1%nat
  /\ option_map color
       (Registry.get "A"
          (players (exec (connection all_open 1 (Some "A") (Some "") "" 0)
                         initial)))
     = Some (VStr "#FF4136").
Proof. repeat split; vm_compute; reflexivity. Qed.

(** C10, amended: a connection with a non-empty [color] parameter leaves the
    counter as it is and the session takes that colour; a connection whose
    [color] parameter is absent or empty advances the counter by one modulo
    the 8 entries of the palette, and the session takes the palette entry the
    counter pointed at. *)
Theorem color_counter_advances_when_server_assigns
    net ws username colour generated now w :
  let w' := exec (connection net ws username colour generated now) w in
  nextColorIndex w'
  = (if supplied colour then nextColorIndex w
     else Nat.modulo (nextColorIndex w + 1) 8)
  /\ option_map color
       (Registry.get (connection_id username generated) (players w'))
     = Some (if supplied colour
             then match colour with Some c => VStr c | None => VUndefined end
             else palette (nextColorIndex w))
  /\ supplied colour
     = match colour with Some c => negb (c =s "") | None => false end.
Proof.
  intros w'.
  destruct (connection_state net ws username colour generated now w)
    as [Hreg Hcounter].
  fold w' in Hreg, Hcounter. rewrite Hreg, Hcounter, RegistryFacts.get_set.
  split; [reflexivity|]. split.
  - cbn [option_map color]. unfold assigned_color, supplied.
    destruct colour as [c|]; [destruct (truthy (VStr c))|]; reflexivity.
  - now destruct colour.
Qed.

(** ** Closing twice *)

(** C4 fails on the [close] path: run for an id that is no longer registered,
    it broadcasts [playerLeft] again.  So B hears twice of one departure when
    A's handler runs twice, and when the sweep has evicted A before A's socket
    closes. *)
Lemma second_close_broadcasts_again :
  let once := exec (handle first_closed 5 (Close "A")) two_players in
  let twice := exec (handle first_closed 6 (Close "A")) once in
  Registry.get "A" (players once) = None
  /\ received 2 twice = received 2 once ++ [playerLeft "A"]
  /\ filter (has_type "playerLeft") (received 2 twice)
     = [playerLeft "A"; playerLeft "A"]
  /\ filter (has_type "playerLeft") (received 2 late_close)
     = [playerLeft "A"; playerLeft "A"].
Proof. repeat split; vm_compute; reflexivity. Qed.

(** C4, amended: for an id that is not in the registry, both handlers return
    without an exception and leave the registry and the palette counter as
    they were; the [error] handler sends nothing, the [close] handler still
    sends one [playerLeft] frame to every registered session whose socket
    takes it. *)
Theorem disconnect_of_absent_id net pid w :
  Registry.get pid (players w) = None ->
  result (onClose net pid) w = Done tt
  /\ players (exec (onClose net pid) w) = players w
  /\ nextColorIndex (exec (onClose net pid) w) = nextColorIndex w
  /\ outbox (exec (onClose net pid) w)
     = outbox w ++ deliveries net (playerLeft pid) (players w)
  /\ result (onError pid) w = Done tt
  /\ players (exec (onError pid) w) = players w
  /\ nextColorIndex (exec (onError pid) w) = nextColorIndex w
  /\ outbox (exec (onError pid) w) = outbox w.
Proof.
  intros Habsent. unfold result, exec, onClose, onError.
  erewrite bind_Done by apply broadcastToAll_fans.
  unfold bind, console_error, modify, set_players, fanned.
  cbn [fst snd players nextColorIndex outbox console].
  rewrite (RegistryFacts.delete_absent _ _ Habsent).
  repeat split.
Qed.

Lemma disconnect_of_absent_id_witness :
  Registry.get "Z" (players two_players) = None
  /\ outbox (exec (onClose all_open "Z") two_players)
     = outbox two_players
       ++ deliveries all_open (playerLeft "Z") (players two_players).
Proof.
  assert (H : Registry.get "Z" (players two_players) = None) by reflexivity.
  split; [exact H|].
  exact (proj1 (proj2 (proj2 (proj2
           (@disconnect_of_absent_id all_open "Z" two_players H))))).
Defined.

(** ** Position updates *)

Lemma isValidPosition_three_numbers v :
  isValidPosition v = true <-> three_numbers v.
Proof.
  unfold isValidPosition, three_numbers. split.
  - destruct (truthy v); cbn [negb]; [|discriminate].
    destruct (get v "x") as [| | |x| | |]; cbn [is_number andb]; try discriminate.
    destruct (get v "y") as [| | |y| | |]; cbn [is_number andb]; try discriminate.
    destruct (get v "z") as [| | |z| | |]; cbn [is_number andb]; try discriminate.
    cbn [not_NaN]. intros H. exists x, y, z.
    destruct (isNaN x), (isNaN y), (isNaN z); try discriminate.
    now repeat split.
  - intros (x & y & z & Hx & Hy & Hz & Nx & Ny & Nz).
    assert (Ht : truthy v = true).
    { destruct v; try discriminate; reflexivity. }
    rewrite Ht, Hx, Hy, Hz. cbn. now rewrite Nx, Ny, Nz.
Qed.

Lemma isValidRotation_three_numbers v :
  isValidRotation v = true <-> three_numbers v.
Proof. exact (isValidPosition_three_numbers v). Qed.

(** C6 fails for an infinite component: [Infinity] is a number and is not
    NaN, so the update is accepted and A's stored position is the payload. *)
Lemma infinite_component_is_stored :
  spec_three_finite (get infinite_pose "position") = false
  /\ option_map position (Registry.get "A" (players two_players)) = Some spawn
  /\ option_map position
       (Registry.get "A"
          (players (exec (handle all_open 5 (Message "A" (Some infinite_pose)))
                         two_players)))
     = Some (get infinite_pose "position").
Proof. repeat split; vm_compute; reflexivity. Qed.

Lemma type_is_object data t : type_is data t = true -> exists props, data = VObj props.
Proof.
  destruct data as [| | | |s|l|props]; try discriminate.
  intros _. now exists props.
Qed.

(** C6, amended: an [updatePosition] message from a registered session
    overwrites the stored position and rotation with the payload's when
    [position] and [rotation] both have [x], [y] and [z] that are numbers other
    than NaN (an infinite component is accepted), and leaves both as they were
    in every other case. *)
Theorem updatePosition_overwrites_iff_three_numbers net pid data now w p :
  Registry.get pid (players w) = Some p ->
  type_is data "updatePosition" = true ->
  let w' := exec (onMessage net pid (Some data) now) w in
  let ok := isValidPosition (get data "position")
            && isValidRotation (get data "rotation") in
  (exists p',
      Registry.get pid (players w') = Some p'
      /\ position p' = (if ok then get data "position" else position p)
      /\ rotation p' = (if ok then get data "rotation" else rotation p))
  /\ (ok = true <-> three_numbers (get data "position")
                    /\ three_numbers (get data "rotation")).
Proof.
  intros Hget Htype w' ok. split.
  - destruct (type_is_object _ _ Htype) as [props ->].
    assert (Hguard : negb (isValidPosition (get (VObj props) "position"))
                     || negb (isValidRotation (get (VObj props) "rotation"))
                     = negb ok) by (unfold ok; now rewrite negb_andb).
    assert (Hrun :
      onMessage net pid (Some (VObj props)) now w
      = (Done tt,
         let touched :=
           set_players (Registry.update pid (set_lastUpdate now) (players w)) w in
         if ok
         then set_players
                (Registry.update pid
                   (set_pose (get (VObj props) "position")
                             (get (VObj props) "rotation") now)
                   (players touched)) touched
         else touched)).
    { unfold onMessage. apply try_catch_Done. rewrite bind_modify, Htype.
      unfold updatePlayerPosition. apply try_catch_Done. rewrite bind_gets.
      cbn [players set_players]. rewrite RegistryFacts.get_update, Hget.
      cbn [option_map]. rewrite Hguard. now destruct ok. }
    unfold w', exec. rewrite Hrun. cbn [snd].
    destruct ok; cbn [players set_players];
      rewrite ?RegistryFacts.get_update, Hget;
      eexists; (split; [reflexivity|]); split; reflexivity.
  - unfold ok. rewrite andb_true_iff, isValidPosition_three_numbers,
      isValidRotation_three_numbers. reflexivity.
Qed.

Lemma updatePosition_overwrites_iff_three_numbers_witness :
  Registry.get "A" (players two_players) = Some player_A
  /\ type_is infinite_pose "updatePosition" = true
  /\ exists p',
       Registry.get "A"
         (players (exec (onMessage all_open "A" (Some infinite_pose) 5)
                        two_players)) = Some p'
       /\ position p'
          = (if isValidPosition (get infinite_pose "position")
                && isValidRotation (get infinite_pose "rotation")
             then get infinite_pose "position" else position player_A)
       /\ rotation p'
          = (if isValidPosition (get infinite_pose "position")
                && isValidRotation (get infinite_pose "rotation")
             then get infinite_pose "rotation" else rotation player_A).
Proof.
  assert (H1 : Registry.get "A" (players two_players) = Some player_A)
    by (vm_compute; reflexivity).
  assert (H2 : type_is infinite_pose "updatePosition" = true) by reflexivity.
  split; [exact H1|]. split; [exact H2|].
  exact (proj1 (@updatePosition_overwrites_iff_three_numbers
                  all_open "A" infinite_pose 5 two_players player_A H1 H2)).
Defined.

(** ** Chat *)

Lemma string_app_assoc (s1 s2 s3 : string) :
  (s1 ++ (s2 ++ s3) = (s1 ++ s2) ++ s3)%string.
Proof. induction s1 as [|a s1 IH]; simpl; [reflexivity|]. now rewrite IH. Qed.

Lemma replace_all_app c by_ s1 s2 :
  replace_all c by_ (s1 ++ s2)%string
  = (replace_all c by_ s1 ++ replace_all c by_ s2)%string.
Proof.
  induction s1 as [|a s1 IH]; simpl; [reflexivity|].
  destruct (Ascii.eqb a c); rewrite IH; [apply string_app_assoc | reflexivity].
Qed.

(** The two passes of [sanitize] amount to one pass that escapes each angle
    bracket where it stands. *)
Lemma sanitize_escapes text : sanitize text = spec_escape text.
Proof.
  unfold sanitize. induction text as [|a text IH]; [reflexivity|].
  cbn [replace_all spec_escape].
  destruct (Ascii.eqb a "<") eqn:Elt.
  - rewrite replace_all_app, IH. reflexivity.
  - cbn [replace_all]. destruct (Ascii.eqb a ">") eqn:Egt; now rewrite IH.
Qed.

Lemma has_char_app c s1 s2 :
  has_char c (s1 ++ s2)%string = has_char c s1 || has_char c s2.
Proof.
  induction s1 as [|a s1 IH]; simpl; [reflexivity|].
  now rewrite IH, orb_assoc.
Qed.

Lemma sanitize_leaves_no_bracket text :
  has_char "<" (sanitize text) = false /\ has_char ">" (sanitize text) = false.
Proof.
  rewrite sanitize_escapes.
  induction text as [|a text [IHlt IHgt]]; [now split|].
  cbn [spec_escape].
  destruct (Ascii.eqb a "<") eqn:Elt; [|destruct (Ascii.eqb a ">") eqn:Egt].
  - rewrite !has_char_app, IHlt, IHgt. now split.
  - rewrite !has_char_app, IHlt, IHgt. now split.
  - cbn [has_char]. rewrite Elt, Egt, IHlt, IHgt. now split.
Qed.

(** C7 fails on a message of white space: it is empty after trim, and the
    server, which does not trim, relays it to both players. *)
Lemma blank_chat_is_relayed :
  spec_chat_relayed " " = false
  /\ outbox (exec (handle all_open 5 (Message "A" (Some blank_chat))) two_players)
     = outbox two_players
       ++ [(1%nat, chatData "A" player_A " "); (2%nat, chatData "A" player_A " ")].
Proof. split; vm_compute; reflexivity. Qed.

Lemma broadcastChat_runs net pid text w player :
  Registry.get pid (players w) = Some player ->
  broadcastChat net pid (VStr text) w
  = (Done tt,
     if chat_relayed text
     then fanned net (chatData pid player text)
                 "Error sending chat to player " (players w) w
     else w).
Proof.
  intros Hget. unfold broadcastChat. rewrite bind_gets, Hget.
  replace (negb (truthy (VStr text)) || (Z.of_nat (String.length text) >? 200))
    with (negb (chat_relayed text)).
  2:{ unfold chat_relayed, truthy. rewrite negb_andb. f_equal.
      rewrite Z.gtb_ltb, Z.ltb_antisym. reflexivity. }
  destruct (chat_relayed text); cbn [negb]; [|reflexivity].
  exact (forEach_guarded (players w)
           (guarded_send_outer net (chatData pid player text)
                               "Error sending chat to player ") w).
Qed.

(** C7, amended: [broadcastChat] relays a string message exactly when the
    sender is registered and the message, as received and untrimmed, is not
    empty and has at most 200 characters.  The frame then carries the sender's
    id and colour and the message with every [<] and [>] replaced by [&lt;]
    and [&gt;]; it goes to every registered session whose socket takes it, the
    sender among them. *)
Theorem chat_is_relayed_untrimmed net pid text w player :
  Registry.get pid (players w) = Some player ->
  let frame := chatData pid player text in
  result (broadcastChat net pid (VStr text)) w = Done tt
  /\ players (exec (broadcastChat net pid (VStr text)) w) = players w
  /\ outbox (exec (broadcastChat net pid (VStr text)) w)
     = outbox w
       ++ (if chat_relayed text then deliveries net frame (players w) else [])
  /\ (chat_relayed text = true -> delivered net player = true ->
      In (socket player, frame) (deliveries net frame (players w)))
  /\ frame = VObj [("type", VStr "chat"); ("playerId", VStr pid);
                   ("playerColor", color player);
                   ("message", VStr (spec_escape text))]
  /\ has_char "<" (spec_escape text) = false
  /\ has_char ">" (spec_escape text) = false
  /\ (forall w0, Registry.get pid (players w0) = None ->
                 broadcastChat net pid (VStr text) w0 = (Done tt, w0)).
Proof.
  intros Hget frame. unfold result, exec.
  rewrite (@broadcastChat_runs net pid text w player Hget).
  fold frame. cbn [fst snd].
  split; [reflexivity|]. split; [now destruct (chat_relayed text)|].
  split; [destruct (chat_relayed text); cbn; [reflexivity | now rewrite app_nil_r]|].
  split.
  { intros _ Hdelivered. unfold deliveries.
    change (socket player, frame)
      with ((fun e : string * Player => (socket (snd e), frame)) (pid, player)).
    apply in_map, filter_In. split; [now apply RegistryFacts.get_In | assumption]. }
  split; [unfold frame, chatData; now rewrite sanitize_escapes|].
  rewrite <- sanitize_escapes.
  split; [apply sanitize_leaves_no_bracket|].
  split; [apply sanitize_leaves_no_bracket|].
  intros w0 Habsent. unfold broadcastChat. now rewrite bind_gets, Habsent.
Qed.

Lemma chat_is_relayed_untrimmed_witness :
  Registry.get "A" (players two_players) = Some player_A
  /\ outbox (exec (broadcastChat all_open "A" (VStr "hi <b>")) two_players)
     = outbox two_players
       ++ (if chat_relayed "hi <b>"
           then deliveries all_open (chatData "A" player_A "hi <b>")
                           (players two_players)
           else []).
Proof.
  assert (H : Registry.get "A" (players two_players) = Some player_A)
    by (vm_compute; reflexivity).
  split; [exact H|].
  exact (proj1 (proj2 (proj2
           (@chat_is_relayed_untrimmed all_open "A" "hi <b>" two_players
              player_A H)))).
Defined.

(** ** Bombs *)

(** C9 fails for a payload that supplies a falsy countdown: with
    [countdown: 0] the frame carries 10. *)
Lemma zero_countdown_is_replaced :
  get bomb_now "countdown" = VInt 0
  /\ outbox (exec (handle all_open 5 (Message "A" (Some bomb_now))) two_players)
     = outbox two_players
       ++ [(1%nat, bombPlaced "A" bomb_now); (2%nat, bombPlaced "A" bomb_now)]
  /\ get (bombPlaced "A" bomb_now) "countdown" = VInt 10.
Proof. repeat split; vm_compute; reflexivity. Qed.

(** C9, amended: [handleBombPlacement] sends a [bombPlaced] frame to every
    registered session whose socket takes it when the payload's [planetId] is
    truthy and its [position] passes [isValidPosition], and sends nothing
    otherwise.  The frame carries the sender's id, the payload's [planetId]
    and [position], and as countdown the payload's [countdown] when that is
    truthy and 10 when it is absent or falsy (0, NaN, null, false, the empty
    string). *)
Theorem placeBomb_is_rebroadcast net pid data w :
  let ok := truthy (get data "planetId")
            && isValidPosition (get data "position") in
  let frame := bombPlaced pid data in
  result (handleBombPlacement net pid data) w = Done tt
  /\ players (exec (handleBombPlacement net pid data) w) = players w
  /\ outbox (exec (handleBombPlacement net pid data) w)
     = outbox w ++ (if ok then deliveries net frame (players w) else [])
  /\ get frame "type" = VStr "bombPlaced"
  /\ get frame "playerId" = VStr pid
  /\ get frame "planetId" = get data "planetId"
  /\ get frame "position" = get data "position"
  /\ get frame "countdown"
     = (if truthy (get data "countdown") then get data "countdown" else VInt 10)
  /\ keys frame = ["type"; "playerId"; "planetId"; "position"; "countdown"].
Proof.
  intros ok frame. unfold result, exec, handleBombPlacement.
  replace (negb (truthy (get data "planetId"))
           || negb (isValidPosition (get data "position")))
    with (negb ok) by (unfold ok; now rewrite negb_andb).
  destruct ok; cbn [negb].
  - rewrite broadcastToAll_fans. now repeat split.
  - cbn. rewrite app_nil_r. now repeat split.
Qed.

(** ** The registry never holds an id twice *)

Lemma update_keeps_ids pid f :
  preserves same_ids
    (modify (fun w => set_players (Registry.update pid f (players w)) w)).
Proof.
  intros w. split; [|reflexivity].
  cbn [snd modify players set_players]. apply RegistryFacts.ids_update.
Qed.

Ltac keeps_ids :=
  repeat match goal with
  | |- preserves _ (ret _) => apply preserves_ret; exact same_ids_refl
  | |- preserves _ throw => apply preserves_throw; exact same_ids_refl
  | |- preserves _ (gets _) => apply preserves_gets; exact same_ids_refl
  | |- preserves _ (modify _) => apply update_keeps_ids
  | |- preserves _ (broadcastToAll _ _) =>
      apply talk_keeps_ids, quiet_broadcastToAll
  | |- preserves _ (console_error _) =>
      apply talk_keeps_ids, quiet_console_error
  | |- preserves _ (socket_send _ _ _) =>
      apply talk_keeps_ids, quiet_socket_send
  | |- preserves _ (try_catch _ _) =>
      apply preserves_try_catch; [exact same_ids_trans | |]
  | |- preserves _ (bind _ _) =>
      apply preserves_bind; [exact same_ids_trans | | intro]
  | |- preserves _ (players_forEach _) =>
      apply preserves_players_forEach;
        [exact same_ids_refl | exact same_ids_trans | intros ? ?]
  | |- preserves _ (if _ then _ else _) => apply preserves_if
  | |- preserves _ (match ?x with _ => _ end) => destruct x
  end.

Lemma onMessage_keeps_ids net pid message now :
  preserves same_ids (onMessage net pid message now).
Proof.
  unfold onMessage, updatePlayerPosition, updatePlayerAlienMode,
    handleBombPlacement, handlePlanetDestruction, broadcastChat.
  keeps_ids.
Qed.

(** Every handler takes a registry without a repeated id to one without a
    repeated id; the empty registry has none. *)
Lemma handle_keeps_ids_distinct net now ev w :
  NoDup (Registry.ids (players w)) ->
  NoDup (Registry.ids (players (exec (handle net now ev) w))).
Proof.
  intros Hnd. destruct ev as [ws username colour generated|pid message|pid|pid|];
    cbn [handle].
  - destruct (connection_state net ws username colour generated now w) as [-> _].
    now apply RegistryFacts.NoDup_set.
  - destruct (onMessage_keeps_ids net pid message now w) as [Hids _].
    unfold exec. now rewrite Hids.
  - unfold exec, onClose. erewrite bind_Done by apply broadcastToAll_fans.
    cbn. now apply RegistryFacts.NoDup_delete.
  - cbn. now apply RegistryFacts.NoDup_delete.
  - unfold exec. rewrite syncGameState_runs. cbn [snd players set_players].
    rewrite refreshStationary_ids.
    destruct (sweepTimeouts_returns net now w) as (w1 & Hrun & Hplayers & _).
    unfold exec. rewrite Hrun. cbn [snd]. rewrite Hplayers.
    now apply survivors_NoDup.
Qed.

Lemma run_keeps_ids_distinct schedule : forall w,
  NoDup (Registry.ids (players w)) ->
  NoDup (Registry.ids (players (run schedule w))).
Proof.
  induction schedule as [|[[net now] ev] rest IH]; intros w Hnd; [assumption|].
  cbn [run]. pose proof (@handle_keeps_ids_distinct net now ev w Hnd) as Hstep.
  unfold exec in Hstep.
  destruct (handle net now ev w) as [[[]|] w1]; [now apply IH | assumption].
Qed.

(** * Further properties of [server.js] *)

(** ** The heartbeat *)

(** X1: [sendHeartbeat] never throws and never touches the registry: every
    session whose socket is open is sent one [heartbeat] frame stamped [now],
    in registry order; a send that throws costs a console line and the
    session stays registered. *)
Theorem sendHeartbeat_reaches_every_open_socket net now w :
  result (sendHeartbeat net now) w = Done tt
  /\ players (exec (sendHeartbeat net now) w) = players w
  /\ nextColorIndex (exec (sendHeartbeat net now) w) = nextColorIndex w
  /\ outbox (exec (sendHeartbeat net now) w)
     = outbox w ++ deliveries net (heartbeat now) (players w)
  /\ console (exec (sendHeartbeat net now) w)
     = console w
       ++ complaints net "Error sending heartbeat to player " (players w).
Proof.
  pose proof (forEach_guarded (players w)
                (guarded_send_outer net (heartbeat now)
                   "Error sending heartbeat to player ") w) as H.
  unfold result, exec, sendHeartbeat, players_forEach.
  cbv beta in H |- *. rewrite H. now repeat split.
Qed.

(** ** Eviction *)

Lemma get_delete_None k k' (r : Registry.t) :
  Registry.get k r = None -> Registry.get k (Registry.delete k' r) = None.
Proof.
  induction r as [|[k0 p0] r IH]; simpl; [easy|].
  destruct (k =s k0) eqn:E; [discriminate|]. intros H.
  destruct (k' =s k0); simpl; [now apply IH | rewrite E; now apply IH].
Qed.

Lemma In_delete k e (r : Registry.t) : In e (Registry.delete k r) -> In e r.
Proof. unfold Registry.delete. rewrite filter_In. tauto. Qed.

Lemma survivors_incl now (l : Registry.t) e : forall r,
  In e (survivors now l r) -> In e r.
Proof.
  induction l as [|e0 l IH]; intros r; simpl; [easy|].
  intros H. apply IH in H.
  destruct (now - lastUpdate (snd e0) >? timeout); [eapply In_delete|]; eassumption.
Qed.

Lemma survivors_None now (l : Registry.t) k : forall r,
  Registry.get k r = None -> Registry.get k (survivors now l r) = None.
Proof.
  induction l as [|e0 l IH]; intros r H; simpl; [assumption|].
  apply IH. destruct (now - lastUpdate (snd e0) >? timeout);
    [now apply get_delete_None | assumption].
Qed.

Lemma survivors_evict now (l : Registry.t) e : forall r,
  In e l -> now - lastUpdate (snd e) > timeout ->
  Registry.get (fst e) (survivors now l r) = None.
Proof.
  induction l as [|e0 l IH]; intros r Hin Hold; simpl; [easy|].
  destruct Hin as [->|Hin]; [|now apply IH].
  destruct (now - lastUpdate (snd e) >? timeout) eqn:E; [|lia].
  apply survivors_None, RegistryFacts.get_delete.
Qed.

Lemma get_refreshStationary now k (r : Registry.t) :
  Registry.get k (refreshStationary now r)
  = option_map (fun p => if now - lastUpdate p >? SYNC_RATE * 2
                         then set_lastUpdate now p else p)
               (Registry.get k r).
Proof.
  induction r as [|[k0 p0] r IH]; simpl; [reflexivity|].
  destruct (k =s k0); [reflexivity | exact IH].
Qed.

Section SweepAnnounces.

Variable net : Net.
Variable now : Z.

Lemma sweep_announces (l : Registry.t) : forall w,
  let w' := exec (forEach (fun e =>
    (fun (player : Player) (pid : string) =>
       if now - lastUpdate player >? timeout then
         modify (fun w => set_players (Registry.delete pid (players w)) w) ;;
         broadcastToAll net (playerLeft pid)
       else ret tt) (snd e) (fst e)) l) w in
  players w' = survivors now l (players w)
  /\ (exists extra, outbox w' = outbox w ++ extra)
  /\ (forall e, In e l -> now - lastUpdate (snd e) > timeout ->
      forall k q, In (k, q) (players w') -> delivered net q = true ->
      In (socket q, playerLeft (fst e)) (outbox w')).
Proof.
  induction l as [|e0 l IH]; intros w; cbn zeta.
  - simpl. split; [reflexivity|]. split; [exists []; now rewrite app_nil_r|easy].
  - unfold exec. cbn [forEach].
    destruct (now - lastUpdate (snd e0) >? timeout) eqn:E.
    + erewrite bind_Done.
      2:{ rewrite bind_modify. apply broadcastToAll_fans. }
      match goal with |- context [forEach ?cb l ?w1] =>
        destruct (IH w1) as (Hp & [extra Ho] & Hann); unfold exec in Hp, Ho, Hann;
        set (w' := snd (forEach cb l w1)) in * end.
      cbn [players outbox fanned set_players] in Hp, Ho.
      split; [simpl; rewrite E; exact Hp|].
      split; [eexists; rewrite Ho, <- app_assoc; reflexivity|].
      intros e [<-|Hin] Hold k q Hkq Hdel; [|now apply (Hann e Hin Hold k q)].
      rewrite Ho. apply in_or_app. left. apply in_or_app. right.
      unfold deliveries.
      change (socket q, playerLeft (fst e0))
        with ((fun e : string * Player => (socket (snd e), playerLeft (fst e0)))
                (k, q)).
      apply in_map, filter_In. split; [|assumption].
      rewrite Hp in Hkq. now apply survivors_incl in Hkq.
    + rewrite bind_ret.
      destruct (IH w) as (Hp & Ho & Hann). unfold exec in Hp, Ho, Hann.
      split; [simpl; rewrite E; exact Hp|]. split; [exact Ho|].
      intros e [<-|Hin] Hold; [lia | now apply Hann].
Qed.

End SweepAnnounces.

Lemma sweepTimeouts_announces net now w :
  let swept := exec (sweepTimeouts net now) w in
  players swept = survivors now (players w) (players w)
  /\ (exists extra, outbox swept = outbox w ++ extra)
  /\ (forall e, In e (players w) -> now - lastUpdate (snd e) > timeout ->
      forall k q, In (k, q) (players swept) -> delivered net q = true ->
      In (socket q, playerLeft (fst e)) (outbox swept)).
Proof. exact (sweep_announces net now (players w) w). Qed.

(** X15: A session whose last update is more than 30 s old when [syncGameState]
    runs is gone from the registry afterwards and has no entry in that run's
    snapshot; every session that is still registered after the run, and whose
    socket takes a send, has been sent a [playerLeft] frame with the evicted
    id. *)
Theorem timed_out_session_is_evicted_and_announced net now w pid p :
  NoDup (Registry.ids (players w)) ->
  Registry.get pid (players w) = Some p ->
  now - lastUpdate p > timeout ->
  let w' := exec (syncGameState net now) w in
  Registry.get pid (players w') = None
  /\ get (get (gameStateData (players (exec (sweepTimeouts net now) w)) now)
              "players") pid = VUndefined
  /\ (forall k q, Registry.get k (players w') = Some q ->
      delivered net q = true ->
      In (socket q, playerLeft pid) (outbox w')).
Proof.
  intros Hnd Hget Hold w'.
  pose proof (RegistryFacts.get_In _ _ Hget) as Hin.
  destruct (sweepTimeouts_announces net now w) as (Hp & _ & Hann).
  assert (Hgone : Registry.get pid (players (exec (sweepTimeouts net now) w)) = None).
  { rewrite Hp. exact (survivors_evict now (players w) (pid, p) (players w) Hin Hold). }
  assert (Hrun : w' =
    let swept := exec (sweepTimeouts net now) w in
    set_players (refreshStationary now (players swept))
      (fanned net (gameStateData (players swept) now)
              "Error sending game state to player " (players swept) swept)).
  { unfold w'. unfold exec at 1. now rewrite syncGameState_runs. }
  rewrite Hrun. cbn zeta. cbn [players outbox set_players fanned].
  split; [rewrite get_refreshStationary, Hgone; reflexivity|].
  split.
  { change (get (snapshot (players (exec (sweepTimeouts net now) w))) pid = VUndefined).
    rewrite snapshot_entry, Hgone; [reflexivity|].
    rewrite Hp. now apply survivors_NoDup. }
  intros k q Hq Hdel. rewrite get_refreshStationary in Hq.
  destruct (Registry.get k (players (exec (sweepTimeouts net now) w))) as [q0|] eqn:Hq0;
    [|discriminate].
  apply in_or_app. left.
  assert (Hsock : socket q = socket q0).
  { cbn [option_map] in Hq. injection Hq as <-.
    match goal with |- context [if ?c then _ else _] => destruct c end;
      reflexivity. }
  rewrite Hsock.
  apply (Hann (pid, p) Hin Hold k q0).
  - now apply RegistryFacts.get_In.
  - unfold delivered in *. now rewrite <- Hsock.
Qed.

Lemma timed_out_session_is_evicted_and_announced_witness :
  NoDup (Registry.ids (players two_players))
  /\ Registry.get "A" (players two_players) = Some player_A
  /\ 40000 - lastUpdate player_A > timeout
  /\ Registry.get "A" (players (exec (syncGameState all_open 40000) two_players))
     = None.
Proof.
  assert (H1 : NoDup (Registry.ids (players two_players))).
  { vm_compute. repeat constructor; simpl; intuition discriminate. }
  assert (H2 : Registry.get "A" (players two_players) = Some player_A)
    by (vm_compute; reflexivity).
  assert (H3 : 40000 - lastUpdate player_A > timeout) by reflexivity.
  repeat (split; [assumption|]).
  exact (proj1 (@timed_out_session_is_evicted_and_announced
                  all_open 40000 two_players "A" player_A H1 H2 H3)).
Defined.

(** ** What a tick changes *)

Lemma get_delete_Some k k' q (r : Registry.t) :
  Registry.get k (Registry.delete k' r) = Some q -> Registry.get k r = Some q.
Proof.
  destruct (String.eqb_spec k' k) as [->|Hne].
  - now rewrite RegistryFacts.get_delete.
  - now rewrite RegistryFacts.get_delete_other.
Qed.

Lemma survivors_Some now (l : Registry.t) k q : forall r,
  Registry.get k (survivors now l r) = Some q -> Registry.get k r = Some q.
Proof.
  induction l as [|e0 l IH]; intros r H; simpl in H; [assumption|].
  apply IH in H. destruct (now - lastUpdate (snd e0) >? timeout);
    [now apply get_delete_Some in H | assumption].
Qed.

(** C5: every termination of a registered session removes it from the
    registry and sends a [playerLeft] frame with its id to every session that
    is registered afterwards and whose socket takes a send.  That holds for
    the [close] event, whose handler announces before it deletes; for a
    transport error, where the [error] handler deletes and the [close] event
    of the same connection, which follows it, announces to the sessions that
    are left; and for the sweep of [syncGameState], once the session's last
    update is more than 30 s old. *)
Theorem every_termination_removes_and_announces net now w pid p :
  Registry.get pid (players w) = Some p ->
  (let w' := exec (handle net now (Close pid)) w in
   result (handle net now (Close pid)) w = Done tt
   /\ Registry.get pid (players w') = None
   /\ outbox w' = outbox w ++ deliveries net (playerLeft pid) (players w)
   /\ told_of_departure net pid w')
  /\ (forall net0 now0,
        let w' := run [(net0, now0, Error pid); (net, now, Close pid)] w in
        Registry.get pid (players w') = None
        /\ outbox w'
           = outbox w
             ++ deliveries net (playerLeft pid)
                  (Registry.delete pid (players w))
        /\ told_of_departure net pid w')
  /\ (now - lastUpdate p > timeout ->
      let w' := exec (handle net now Tick) w in
      result (handle net now Tick) w = Done tt
      /\ Registry.get pid (players w') = None
      /\ told_of_departure net pid w')
  /\ get (playerLeft pid) "type" = VStr "playerLeft"
  /\ get (playerLeft pid) "playerId" = VStr pid.
Proof.
  intros Hget.
  assert (Hfan : forall r k q,
            Registry.get k r = Some q -> delivered net q = true ->
            In (socket q, playerLeft pid) (deliveries net (playerLeft pid) r)).
  { intros r k q Hq Hdel. unfold deliveries. apply in_map_iff.
    exists (k, q). split; [reflexivity|]. apply filter_In.
    split; [now apply RegistryFacts.get_In | exact Hdel]. }
  split.
  { cbn zeta. cbn [handle].
    destruct (onClose_removes_and_announces net pid w) as (Hres & Hgone & Hout).
    repeat (split; [assumption|]).
    intros k q Hq Hdel. rewrite Hout. apply in_or_app. right.
    apply (Hfan (players w) k q); [|assumption].
    assert (Hplayers : players (exec (onClose net pid) w)
                       = Registry.delete pid (players w)).
    { unfold exec, onClose. erewrite bind_Done by apply broadcastToAll_fans.
      reflexivity. }
    rewrite Hplayers in Hq. now apply get_delete_Some in Hq. }
  split.
  { intros net0 now0.
    assert (Herr : handle net0 now0 (Error pid) w
                   = (Done tt,
                      set_players (Registry.delete pid (players w))
                        (logged ("WebSocket error for player " ++ pid)%string
                                w))) by reflexivity.
    cbn zeta. cbn [run]. rewrite Herr.
    set (w1 := set_players (Registry.delete pid (players w))
                 (logged ("WebSocket error for player " ++ pid)%string w)).
    assert (Hclose : handle net now (Close pid) w1
                     = (Done tt,
                        set_players (Registry.delete pid (players w1))
                          (fanned net (playerLeft pid)
                                  "Error sending to player " (players w1) w1))).
    { cbn [handle]. unfold onClose.
      erewrite bind_Done by apply broadcastToAll_fans. reflexivity. }
    rewrite Hclose. cbn [players outbox set_players fanned].
    split; [apply RegistryFacts.get_delete|]. split; [reflexivity|].
    intros k q Hq Hdel. apply in_or_app. right.
    apply (Hfan _ k q); [|assumption]. now apply get_delete_Some in Hq. }
  split; [|now split].
  intros Hold. cbn zeta. cbn [handle].
  pose proof (RegistryFacts.get_In _ _ Hget) as Hin.
  destruct (sweepTimeouts_announces net now w) as (Hp & _ & Hann).
  assert (Hgone : Registry.get pid (players (exec (sweepTimeouts net now) w))
                  = None).
  { rewrite Hp.
    exact (survivors_evict now (players w) (pid, p) (players w) Hin Hold). }
  assert (Hrun : exec (syncGameState net now) w =
    let swept := exec (sweepTimeouts net now) w in
    set_players (refreshStationary now (players swept))
      (fanned net (gameStateData (players swept) now)
              "Error sending game state to player " (players swept) swept)).
  { unfold exec at 1. now rewrite syncGameState_runs. }
  split; [unfold result; now rewrite syncGameState_runs|].
  unfold told_of_departure. rewrite Hrun. cbn zeta.
  cbn [players outbox set_players fanned].
  split; [rewrite get_refreshStationary, Hgone; reflexivity|].
  intros k q Hq Hdel. rewrite get_refreshStationary in Hq.
  destruct (Registry.get k (players (exec (sweepTimeouts net now) w)))
    as [q0|] eqn:Hq0; [|discriminate].
  apply in_or_app. left.
  assert (Hsock : socket q = socket q0).
  { cbn [option_map] in Hq. injection Hq as <-.
    match goal with |- context [if ?c then _ else _] => destruct c end;
      reflexivity. }
  rewrite Hsock.
  apply (Hann (pid, p) Hin Hold k q0).
  - now apply RegistryFacts.get_In.
  - unfold delivered in *. now rewrite <- Hsock.
Qed.

Lemma every_termination_removes_and_announces_witness :
  Registry.get "A" (players two_players) = Some player_A
  /\ Registry.get "A"
       (players (run [(all_open, 5, Error "A"); (all_open, 6, Close "A")]
                     two_players))
     = None
  /\ received 2 (run [(all_open, 5, Error "A"); (all_open, 6, Close "A")]
                     two_players)
     = received 2 two_players ++ [playerLeft "A"].
Proof.
  assert (H : Registry.get "A" (players two_players) = Some player_A)
    by (vm_compute; reflexivity).
  split; [exact H|].
  split; [|vm_compute; reflexivity].
  exact (proj1 (proj1 (proj2 (@every_termination_removes_and_announces
                                all_open 6 two_players "A" player_A H))
                      all_open 5)).
Defined.

(** X16: [syncGameState] never throws and never touches the palette counter.  A
    session that is registered after a run was registered before it, with the
    same id, position, rotation, colour, mode, planet and socket: a run
    creates no session and changes nothing of a session but [lastUpdate]. *)
Theorem syncGameState_changes_only_lastUpdate net now w :
  let w' := exec (syncGameState net now) w in
  result (syncGameState net now) w = Done tt
  /\ nextColorIndex w' = nextColorIndex w
  /\ (forall k q, Registry.get k (players w') = Some q ->
      exists q0, Registry.get k (players w) = Some q0
                 /\ id q = id q0 /\ position q = position q0
                 /\ rotation q = rotation q0 /\ color q = color q0
                 /\ isAlienMode q = isAlienMode q0
                 /\ landedPlanetId q = landedPlanetId q0
                 /\ socket q = socket q0).
Proof.
  intros w'. unfold w', result, exec. rewrite syncGameState_runs.
  destruct (sweepTimeouts_returns net now w) as (w1 & Hrun & Hplayers & Hcounter).
  unfold exec. rewrite Hrun. cbn [fst snd players nextColorIndex set_players fanned].
  split; [reflexivity|]. split; [assumption|].
  intros k q Hq. rewrite get_refreshStationary, Hplayers in Hq.
  destruct (Registry.get k (survivors now (players w) (players w))) as [q0|] eqn:Hq0;
    [|discriminate].
  exists q0. split; [now apply survivors_Some in Hq0|].
  cbn [option_map] in Hq. injection Hq as <-.
  match goal with |- context [if ?c then _ else _] => destruct c end;
    now repeat split.
Qed.

(** X17: After a run of [syncGameState] at [now], whatever the registry was, no
    registered session has a [lastUpdate] more than [SYNC_RATE * 2] = 200 ms
    behind [now]. *)
Theorem syncGameState_leaves_everyone_recent net now w :
  Forall (fun e => now - lastUpdate (snd e) <= SYNC_RATE * 2)
         (players (exec (syncGameState net now) w)).
Proof.
  unfold exec. rewrite syncGameState_runs. cbn [snd players set_players].
  apply refreshStationary_recent.
Qed.

(** ** Joining *)

Lemma others_after_set net pid data p (r : Registry.t) :
  deliveries_to_others net pid data (Registry.set pid p r)
  = deliveries_to_others net pid data r.
Proof.
  unfold deliveries_to_others. f_equal.
  induction r as [|[k q] r IH]; cbn [Registry.set filter fst snd].
  - now rewrite String.eqb_refl.
  - destruct (pid =s k) eqn:E; cbn [filter fst snd].
    + apply String.eqb_eq in E. subst k. now rewrite String.eqb_refl.
    + now rewrite IH.
Qed.

Lemma forEach_others net pid data (l : Registry.t) :
  (forall s, sendThrows net s = false) ->
  forall w,
    forEach (fun e =>
      (fun (player : Player) (k : string) =>
         if negb (k =s pid) && isOpen net (socket player)
         then socket_send net (socket player) data
         else ret tt) (snd e) (fst e)) l w
    = (Done tt,
       mkWorld (players w) (nextColorIndex w)
               (outbox w ++ deliveries_to_others net pid data l) (console w)).
Proof.
  intros Hok. induction l as [|[k q] l IH]; intros w.
  - cbn. unfold ret. destruct w; cbn. now rewrite app_nil_r.
  - cbn [forEach fst snd]. unfold deliveries_to_others. cbn [filter fst snd].
    destruct (negb (k =s pid) && isOpen net (socket q)).
    + erewrite bind_Done.
      2:{ unfold socket_send. rewrite Hok. reflexivity. }
      rewrite IH. cbn [players nextColorIndex outbox console map fst snd].
      unfold deliveries_to_others. now rewrite <- app_assoc.
    + rewrite bind_ret. now rewrite IH.
Qed.

Lemma broadcastToOthers_delivers net pid data w :
  (forall s, sendThrows net s = false) ->
  broadcastToOthers net pid data w
  = (Done tt,
     mkWorld (players w) (nextColorIndex w)
             (outbox w ++ deliveries_to_others net pid data (players w))
             (console w)).
Proof. intros Hok. exact (forEach_others net pid data (players w) Hok w). Qed.

Lemma connection_runs net ws username colour generated now w :
  (forall s, sendThrows net s = false) ->
  let pid := connection_id username generated in
  let me := newcomer pid (assigned_color colour (nextColorIndex w)) now ws in
  connection net ws username colour generated now w
  = (Done tt,
     mkWorld (Registry.set pid me (players w))
             (if supplied colour then nextColorIndex w
              else Nat.modulo (nextColorIndex w + 1) (List.length playerColors))
             (outbox w
              ++ (if isOpen net ws
                  then [(ws, initFrame pid (color me)
                               (Registry.set pid me (players w)))]
                  else [])
              ++ deliveries_to_others net pid (playerJoined me) (players w))
             (console w)).
Proof.
  intros Hok pid me.
  unfold connection. erewrite bind_Done by apply assign_color_runs.
  rewrite bind_modify, bind_gets. fold pid. fold me.
  unfold sendToPlayer. destruct (isOpen net ws).
  - erewrite bind_Done by (unfold socket_send; rewrite Hok; reflexivity).
    rewrite broadcastToOthers_delivers by assumption.
    destruct (supplied colour);
      cbn [players nextColorIndex outbox console set_players];
      rewrite others_after_set, <- ?app_assoc; reflexivity.
  - rewrite bind_ret, broadcastToOthers_delivers by assumption.
    destruct (supplied colour);
      cbn [players nextColorIndex outbox console set_players app];
      rewrite others_after_set; reflexivity.
Qed.

(** X4: When no [send] throws, the connection handler returns; the newcomer's
    socket, if open, is sent the [init] frame built from the registry that
    already holds the newcomer, and then every session registered under
    another id whose socket is open is sent [playerJoined] with the newcomer's
    public view.  No [playerJoined] goes to the entry of the newcomer's own
    id. *)
Theorem connection_greets_newcomer_and_tells_others
    net ws username colour generated now w :
  (forall s, sendThrows net s = false) ->
  let pid := connection_id username generated in
  let me := newcomer pid (assigned_color colour (nextColorIndex w)) now ws in
  let w' := exec (connection net ws username colour generated now) w in
  result (connection net ws username colour generated now) w = Done tt
  /\ players w' = Registry.set pid me (players w)
  /\ outbox w'
     = outbox w
       ++ (if isOpen net ws then [(ws, initFrame pid (color me) (players w'))]
           else [])
       ++ deliveries_to_others net pid (playerJoined me) (players w).
Proof.
  intros Hok pid me w'. unfold w', result, exec.
  rewrite (@connection_runs net ws username colour generated now w Hok).
  cbn [fst snd players outbox]. now repeat split.
Qed.

Lemma connection_greets_newcomer_and_tells_others_witness :
  (forall s, sendThrows all_open s = false)
  /\ result (connection all_open 3 (Some "C") None "" 7) two_players = Done tt.
Proof.
  assert (H : forall s, sendThrows all_open s = false) by reflexivity.
  split; [exact H|].
  exact (proj1 (@connection_greets_newcomer_and_tells_others
                  all_open 3 (Some "C") None "" 7 two_players H)).
Defined.

(** X5: The roster of an [init] frame.  Under a registry without repeated ids
    its keys are the ids registered once the newcomer is, but [__proto__]
    (assigning under that name sets the prototype of the roster and adds no
    property).  Under each such id it has an object with exactly the keys
    [id], [position], [rotation], [color], [isAlienMode] and [landedPlanetId],
    holding the values of that session's record.  Unless it is [__proto__] the
    newcomer's id is one of the keys, and its entry is the view of the record
    just registered. *)
Theorem init_roster_lists_everyone net ws username colour generated now w :
  NoDup (Registry.ids (players w)) ->
  let pid := connection_id username generated in
  let w' := exec (connection net ws username colour generated now) w in
  let frame := initFrame pid (assigned_color colour (nextColorIndex w))
                         (players w') in
  (forall k, In k (keys (get frame "players"))
             <-> In k (Registry.ids (players w')) /\ k <> "__proto__")
  /\ (forall k q,
        k <> "__proto__" ->
        Registry.get k (players w') = Some q ->
        let entry := get (get frame "players") k in
        keys entry
        = ["id"; "position"; "rotation"; "color"; "isAlienMode";
           "landedPlanetId"]
        /\ get entry "id" = VStr (id q)
        /\ get entry "position" = position q
        /\ get entry "rotation" = rotation q
        /\ get entry "color" = color q
        /\ get entry "isAlienMode" = isAlienMode q
        /\ get entry "landedPlanetId" = landedPlanetId q)
  /\ (pid <> "__proto__" ->
      In pid (keys (get frame "players"))
      /\ get (get frame "players") pid
         = getPlayerDataForBroadcast
             (newcomer pid (assigned_color colour (nextColorIndex w)) now ws))
  /\ get frame "playerId" = VStr pid
  /\ get frame "planets" = planets.
Proof.
  intros Hnd pid w' frame.
  destruct (connection_state net ws username colour generated now w) as [Hreg _].
  fold pid in Hreg. fold w' in Hreg.
  assert (Hnd' : NoDup (Registry.ids (players w'))).
  { rewrite Hreg. now apply RegistryFacts.NoDup_set. }
  assert (Hkeys : forall k,
            In k (keys (get frame "players"))
            <-> In k (Registry.ids (players w')) /\ k <> "__proto__").
  { intros k. change (get frame "players") with (getPlayersData (players w')).
    unfold getPlayersData, keys. rewrite In_keys_fold. cbn [map In]. tauto. }
  assert (Hroster : forall k q,
            k <> "__proto__" ->
            Registry.get k (players w') = Some q ->
            get (get frame "players") k = getPlayerDataForBroadcast q).
  { intros k q Hk Hget.
    change (get (getPlayersData (players w')) k = getPlayerDataForBroadcast q).
    unfold getPlayersData, get.
    rewrite (@snapshot_fold getPlayerDataForBroadcast (players w') Hnd').
    rewrite Hget. apply String.eqb_neq in Hk. now rewrite Hk. }
  split; [exact Hkeys|].
  split; [intros k q Hk Hget; cbn zeta; rewrite (Hroster k q Hk Hget);
          now repeat split|].
  split; [|now repeat split].
  intros Hpid.
  assert (Hme : Registry.get pid (players w')
                = Some (newcomer pid (assigned_color colour (nextColorIndex w))
                                 now ws)).
  { rewrite Hreg. apply RegistryFacts.get_set. }
  split; [|now apply Hroster].
  apply Hkeys. split; [|assumption].
  apply RegistryFacts.get_In in Hme.
  apply (in_map fst) in Hme. exact Hme.
Qed.

Lemma init_roster_lists_everyone_witness :
  NoDup (Registry.ids (players two_players))
  /\ forall k,
       In k (keys (get (initFrame "C"
                          (assigned_color None (nextColorIndex two_players))
                          (players (exec (connection all_open 3 (Some "C") None
                                                     "" 7) two_players)))
                       "players"))
       <-> In k (Registry.ids
                   (players (exec (connection all_open 3 (Some "C") None "" 7)
                                  two_players)))
           /\ k <> "__proto__".
Proof.
  assert (H : NoDup (Registry.ids (players two_players))).
  { vm_compute. repeat constructor; simpl; intuition discriminate. }
  split; [exact H|].
  exact (proj1 (@init_roster_lists_everyone
                  all_open 3 (Some "C") None "" 7 two_players H)).
Defined.

(** ** What a message can change *)

Lemma get_update_other k pid f (r : Registry.t) :
  k <> pid -> Registry.get k (Registry.update pid f r) = Registry.get k r.
Proof.
  intros Hne. induction r as [|[k0 p0] r IH]; simpl; [reflexivity|].
  destruct (String.eqb_spec pid k0) as [->|Hne0]; simpl.
  - destruct (String.eqb_spec k k0); [congruence | reflexivity].
  - now rewrite IH.
Qed.

Lemma others_untouched_refl pid w : others_untouched pid w w.
Proof. now repeat split. Qed.

Lemma others_untouched_trans pid w1 w2 w3 :
  others_untouched pid w1 w2 -> others_untouched pid w2 w3 ->
  others_untouched pid w1 w3.
Proof.
  intros (Hg1 & Hi1 & Hc1) (Hg2 & Hi2 & Hc2). repeat split.
  - intros k Hk. now rewrite Hg2, Hg1.
  - now rewrite Hi2.
  - now rewrite Hc2.
Qed.

Lemma talk_leaves_others pid {A} (m : M A) :
  preserves same_state m -> preserves (others_untouched pid) m.
Proof. intros H w. destruct (H w) as [Hp Hc]. repeat split; now rewrite ?Hp. Qed.

Lemma update_leaves_others pid f :
  preserves (others_untouched pid)
    (modify (fun w => set_players (Registry.update pid f (players w)) w)).
Proof.
  intros w. cbn [snd modify]. repeat split; cbn [players set_players].
  - intros k Hk. now apply get_update_other.
  - apply RegistryFacts.ids_update.
Qed.

Lemma same_session_refl pid now w : same_session pid now w w.
Proof. intros p Hp. exists p. now repeat split. Qed.

Lemma same_session_trans pid now w1 w2 w3 :
  same_session pid now w1 w2 -> same_session pid now w2 w3 ->
  same_session pid now w1 w3.
Proof.
  intros H12 H23 p Hp.
  destruct (H12 p Hp) as (p2 & Hp2 & Hi & Hc & Hs & Hg & Hl).
  destruct (H23 p2 Hp2) as (p3 & Hp3 & Hi' & Hc' & Hs' & Hg' & Hl').
  exists p3. repeat split; try congruence. intros E. auto.
Qed.

Lemma talk_keeps_session pid now {A} (m : M A) :
  preserves same_state m -> preserves (same_session pid now) m.
Proof.
  intros H w p Hp. destruct (H w) as [Hreg _]. exists p. rewrite Hreg.
  now repeat split.
Qed.

Lemma update_keeps_session pid now f :
  (forall p, id (f p) = id p /\ color (f p) = color p /\ socket (f p) = socket p
             /\ pingTime (f p) = pingTime p
             /\ (lastUpdate p = now -> lastUpdate (f p) = now)) ->
  preserves (same_session pid now)
    (modify (fun w => set_players (Registry.update pid f (players w)) w)).
Proof.
  intros Hf w p Hp. exists (f p). cbn [snd modify players set_players].
  rewrite RegistryFacts.get_update, Hp. split; [reflexivity|]. apply Hf.
Qed.

(** The walk over a handler's code, for a relation with its lemmas and the
    tactic that settles a registry update. *)
Ltac walk refl trans upd talk :=
  repeat match goal with
  | |- preserves _ (ret _) => apply preserves_ret; exact refl
  | |- preserves _ throw => apply preserves_throw; exact refl
  | |- preserves _ (gets _) => apply preserves_gets; exact refl
  | |- preserves _ (modify _) => upd
  | |- preserves _ (broadcastToAll _ _) => apply talk, quiet_broadcastToAll
  | |- preserves _ (console_error _) => apply talk, quiet_console_error
  | |- preserves _ (socket_send _ _ _) => apply talk, quiet_socket_send
  | |- preserves _ (try_catch _ _) =>
      apply preserves_try_catch; [exact trans | |]
  | |- preserves _ (bind _ _) =>
      apply preserves_bind; [exact trans | | intro]
  | |- preserves _ (players_forEach _) =>
      apply preserves_players_forEach; [exact refl | exact trans | intros ? ?]
  | |- preserves _ (if _ then _ else _) => apply preserves_if
  | |- preserves _ (match ?x with _ => _ end) => destruct x
  end.

Lemma onMessage_leaves_others net pid message now :
  preserves (others_untouched pid) (onMessage net pid message now).
Proof.
  unfold onMessage, updatePlayerPosition, updatePlayerAlienMode,
    handleBombPlacement, handlePlanetDestruction, broadcastChat.
  walk (others_untouched_refl pid) (others_untouched_trans (pid:=pid))
       ltac:(apply update_leaves_others) (@talk_leaves_others pid unit).
Qed.

Lemma caught_and_logged body line w :
  result (try_catch body (console_error line)) w = Done tt.
Proof.
  unfold result, try_catch. destruct (body w) as [[[]|] w1]; reflexivity.
Qed.

(** X8: A message never lets an exception out, whatever it holds, and changes
    nothing outside its sender's record: every session registered under
    another id has the record it had, no id is added or removed, and the
    palette counter stays. *)
Theorem message_touches_only_its_sender net pid message now w :
  let w' := exec (onMessage net pid message now) w in
  result (onMessage net pid message now) w = Done tt
  /\ (forall k, k <> pid ->
      Registry.get k (players w') = Registry.get k (players w))
  /\ Registry.ids (players w') = Registry.ids (players w)
  /\ nextColorIndex w' = nextColorIndex w.
Proof.
  split; [apply caught_and_logged|].
  exact (onMessage_leaves_others net pid message now w).
Qed.

Lemma onMessage_rest_keeps_session net pid data now :
  preserves (same_session pid now)
    (try_catch
       (match data with
        | VNull | VUndefined => throw
        | _ =>
            if type_is data "updatePosition" then
              updatePlayerPosition pid data now
            else if type_is data "alienMode" then
              updatePlayerAlienMode net pid data
            else if type_is data "placeBomb" then
              handleBombPlacement net pid data
            else if type_is data "planetDestroyed" then
              handlePlanetDestruction net pid (get data "planetId")
            else if type_is data "chat" then
              broadcastChat net pid (get data "message")
            else if type_is data "pong" then
              player <- gets (fun w => Registry.get pid (players w)) ;;
              match player with
              | Some _ =>
                  if truthy (get data "pingTime") then
                    if conversion_throws (get data "pingTime") then throw
                    else
                      modify (fun w =>
                        set_players
                          (Registry.update pid
                             (set_latency now (get data "pingTime"))
                             (players w)) w)
                  else ret tt
              | None => ret tt
              end
            else
              if conversion_throws (get data "type") then throw else ret tt
        end)
       (console_error "Error processing message")).
Proof.
  unfold updatePlayerPosition, updatePlayerAlienMode,
    handleBombPlacement, handlePlanetDestruction, broadcastChat.
  walk (same_session_refl pid now) (same_session_trans (pid:=pid) (now:=now))
       ltac:(apply (@update_keeps_session pid now); intro; now repeat split)
       (@talk_keeps_session pid now unit).
Qed.

(** X9: Every frame that parses refreshes its sender's [lastUpdate], whatever its
    type and whether or not its handler accepts it; no message changes the
    id, the colour or the socket of its sender's record. *)
Theorem parsed_message_refreshes_lastUpdate net pid data now w p :
  Registry.get pid (players w) = Some p ->
  exists p',
    Registry.get pid (players (exec (onMessage net pid (Some data) now) w))
    = Some p'
    /\ lastUpdate p' = now
    /\ id p' = id p /\ color p' = color p /\ socket p' = socket p.
Proof.
  intros Hp.
  pose proof (onMessage_rest_keeps_session net pid data now
                (set_players
                   (Registry.update pid (set_lastUpdate now) (players w)) w))
    as H.
  unfold same_session in H. specialize (H (set_lastUpdate now p)).
  destruct H as (p' & Hp' & Hi & Hc & Hs & _ & Hl).
  { cbn [players set_players]. now rewrite RegistryFacts.get_update, Hp. }
  exists p'. split; [exact Hp'|]. split; [now apply Hl|]. now repeat split.
Qed.

Lemma parsed_message_refreshes_lastUpdate_witness :
  Registry.get "A" (players two_players) = Some player_A
  /\ exists p',
       Registry.get "A"
         (players (exec (onMessage all_open "A" (Some (pong 3 9)) 12) two_players))
       = Some p'
       /\ lastUpdate p' = 12
       /\ id p' = id player_A /\ color p' = color player_A
       /\ socket p' = socket player_A.
Proof.
  assert (H : Registry.get "A" (players two_players) = Some player_A)
    by (vm_compute; reflexivity).
  split; [exact H|].
  exact (@parsed_message_refreshes_lastUpdate
           all_open "A" (pong 3 9) 12 two_players player_A H).
Defined.

(** X10: A frame that does not parse changes nothing and sends nothing: one line
    goes to the console.  The frame [null] parses: its sender's [lastUpdate]
    is refreshed before [data.type] throws, and nothing else happens. *)
Theorem malformed_frame_is_dropped net pid now w :
  onMessage net pid None now w
  = (Done tt,
     mkWorld (players w) (nextColorIndex w) (outbox w)
             (console w ++ ["Error processing message"]))
  /\ onMessage net pid (Some VNull) now w
     = (Done tt,
        mkWorld (Registry.update pid (set_lastUpdate now) (players w))
                (nextColorIndex w) (outbox w)
                (console w ++ ["Error processing message"])).
Proof. split; reflexivity. Qed.

(** X11: A frame whose [type] is none of [updatePosition], [alienMode],
    [placeBomb], [planetDestroyed], [chat] and [pong] (an unknown or missing
    type, a number, a string, an array) refreshes its sender's [lastUpdate]
    and sends nothing.  When its [type] converts to a string that is all; when
    the conversion throws (an object with a member [toString], an array
    holding one) the handler's [catch] logs an error.  No exception
    leaves the handler. *)
Theorem undispatched_frame_only_refreshes net pid data now w :
  data <> VNull -> data <> VUndefined -> undispatched data = true ->
  onMessage net pid (Some data) now w
  = (Done tt,
     if conversion_throws (get data "type")
     then logged "Error processing message" (refreshed pid now w)
     else refreshed pid now w).
Proof.
  intros Hnull Hundef Hun. unfold undispatched in Hun.
  repeat (apply andb_true_iff in Hun; destruct Hun as [Hun ?]).
  repeat match goal with H : negb _ = true |- _ =>
    apply negb_true_iff in H end.
  unfold onMessage, refreshed, try_catch. rewrite bind_modify.
  destruct data; try congruence;
    repeat match goal with H : type_is _ _ = false |- _ => rewrite H end;
    match goal with |- context [conversion_throws ?v] =>
      destruct (conversion_throws v) end;
    reflexivity.
Qed.

Lemma undispatched_frame_only_refreshes_witness :
  unprintable_frame <> VNull /\ unprintable_frame <> VUndefined
  /\ undispatched unprintable_frame = true
  /\ onMessage all_open "A" (Some unprintable_frame) 12 two_players
     = (Done tt,
        logged "Error processing message" (refreshed "A" 12 two_players)).
Proof.
  assert (H1 : unprintable_frame <> VNull) by discriminate.
  assert (H2 : unprintable_frame <> VUndefined) by discriminate.
  assert (H3 : undispatched unprintable_frame = true) by reflexivity.
  repeat (split; [assumption|]).
  exact (@undispatched_frame_only_refreshes
           all_open "A" unprintable_frame 12 two_players H1 H2 H3).
Defined.

Lemma update_update k f g (r : Registry.t) :
  Registry.update k g (Registry.update k f r)
  = Registry.update k (fun p => g (f p)) r.
Proof.
  induction r as [|[k0 p0] r IH]; cbn [Registry.update]; [reflexivity|].
  destruct (k =s k0) eqn:E; cbn [Registry.update]; rewrite E;
    [reflexivity | now rewrite IH].
Qed.

Lemma type_is_other data t t' :
  type_is data t = true -> t' <> t -> type_is data t' = false.
Proof.
  unfold type_is. destruct (get data "type"); try discriminate.
  intros E Hne. apply String.eqb_eq in E. subst. now apply String.eqb_neq.
Qed.

(** X26: A [pong] from a registered session refreshes [lastUpdate] and, when
    its [pingTime] is truthy, stores the latency computed from it in the
    sender's record; nothing is sent.  When the [pingTime] cannot be converted
    to a number the subtraction throws before the store, and the handler's
    [catch] logs an error.  A falsy [pingTime], or a [pong] from an id that is
    not registered, stores nothing. *)
Theorem pong_stores_latency net pid data now w :
  type_is data "pong" = true ->
  onMessage net pid (Some data) now w
  = (Done tt,
     match Registry.get pid (players w) with
     | Some _ =>
         if truthy (get data "pingTime") then
           if conversion_throws (get data "pingTime")
           then logged "Error processing message" (refreshed pid now w)
           else set_players
                  (Registry.update pid
                     (fun p => set_latency now (get data "pingTime")
                                           (set_lastUpdate now p))
                     (players w)) w
         else refreshed pid now w
     | None => refreshed pid now w
     end)
  /\ forall p,
       Registry.get pid (players w) = Some p ->
       truthy (get data "pingTime") = true ->
       conversion_throws (get data "pingTime") = false ->
       let w' := exec (onMessage net pid (Some data) now) w in
       Registry.get pid (players w')
       = Some (set_latency now (get data "pingTime") (set_lastUpdate now p))
       /\ latency (set_latency now (get data "pingTime") (set_lastUpdate now p))
          = Some (now, get data "pingTime")
       /\ outbox w' = outbox w /\ console w' = console w.
Proof.
  intros Hpong.
  assert (Hrun : onMessage net pid (Some data) now w
    = (Done tt,
       match Registry.get pid (players w) with
       | Some _ =>
           if truthy (get data "pingTime") then
             if conversion_throws (get data "pingTime")
             then logged "Error processing message" (refreshed pid now w)
             else set_players
                    (Registry.update pid
                       (fun p => set_latency now (get data "pingTime")
                                             (set_lastUpdate now p))
                       (players w)) w
           else refreshed pid now w
       | None => refreshed pid now w
       end)).
  { assert (Hobj : exists props, data = VObj props).
    { unfold type_is, get in Hpong. destruct data; try discriminate. eauto. }
    destruct Hobj as [props ->].
    unfold onMessage, refreshed, try_catch. rewrite bind_modify.
    rewrite (@type_is_other _ "pong" "updatePosition" Hpong) by discriminate.
    rewrite (@type_is_other _ "pong" "alienMode" Hpong) by discriminate.
    rewrite (@type_is_other _ "pong" "placeBomb" Hpong) by discriminate.
    rewrite (@type_is_other _ "pong" "planetDestroyed" Hpong) by discriminate.
    rewrite (@type_is_other _ "pong" "chat" Hpong) by discriminate.
    rewrite Hpong. cbv iota. rewrite bind_gets. cbn [players set_players].
    rewrite RegistryFacts.get_update.
    destruct (Registry.get pid (players w)) as [p|]; cbn [option_map];
      [|reflexivity].
    destruct (truthy (get (VObj props) "pingTime")); [|reflexivity].
    destruct (conversion_throws (get (VObj props) "pingTime")); [reflexivity|].
    cbn [modify fst snd players set_players].
    now rewrite update_update. }
  split; [exact Hrun|].
  intros p Hp Htruthy Hconv w'. unfold w', exec. rewrite Hrun, Hp, Htruthy, Hconv.
  cbn [snd players set_players outbox console].
  rewrite RegistryFacts.get_update, Hp. now repeat split.
Qed.

Lemma pong_stores_latency_witness :
  type_is (pong 3 9) "pong" = true
  /\ Registry.get "A"
       (players (exec (onMessage all_open "A" (Some (pong 3 9)) 12) two_players))
     = Some (set_latency 12 (VInt 3) (set_lastUpdate 12 player_A)).
Proof.
  assert (H : type_is (pong 3 9) "pong" = true) by reflexivity.
  split; [exact H|].
  exact (proj1 (proj2 (@pong_stores_latency all_open "A" (pong 3 9) 12
                         two_players H)
                      player_A eq_refl eq_refl eq_refl)).
Defined.

(** ** Mode changes and destroyed planets *)

Lemma deliveries_after_update net data pid f (r : Registry.t) :
  (forall p, socket (f p) = socket p) ->
  deliveries net data (Registry.update pid f r) = deliveries net data r.
Proof.
  intros Hf. unfold deliveries, delivered.
  induction r as [|[k q] r IH]; cbn [Registry.update]; [reflexivity|].
  destruct (pid =s k); cbn [filter map fst snd].
  - rewrite Hf. destruct (isOpen net (socket q) && negb (sendThrows net (socket q)));
      cbn [map fst snd]; now rewrite ?Hf.
  - destruct (isOpen net (socket q) && negb (sendThrows net (socket q)));
      cbn [map fst snd]; now rewrite IH.
Qed.

(** X12: An [alienMode] message from a registered session stores the payload's
    [isAlienMode] as it is, whatever its type, and as [landedPlanetId] the
    payload's [planetId] when that is truthy and [null] otherwise; it then
    sends [playerAlienMode] with both values to every registered session whose
    socket takes it, the sender included.  From an id that is not registered
    it does nothing. *)
Theorem alienMode_is_stored_and_announced net pid data w p :
  Registry.get pid (players w) = Some p ->
  let planet := if truthy (get data "planetId")
                then get data "planetId" else VNull in
  let w' := exec (updatePlayerAlienMode net pid data) w in
  result (updatePlayerAlienMode net pid data) w = Done tt
  /\ Registry.get pid (players w')
     = Some (set_alien (get data "isAlienMode") planet p)
  /\ outbox w'
     = outbox w
       ++ deliveries net (playerAlienMode pid (get data "isAlienMode") planet)
                     (players w)
  /\ (delivered net p = true ->
      In (socket p, playerAlienMode pid (get data "isAlienMode") planet)
         (outbox w'))
  /\ (forall w0, Registry.get pid (players w0) = None ->
      updatePlayerAlienMode net pid data w0 = (Done tt, w0)).
Proof.
  intros Hp planet w'.
  assert (Hrun :
    updatePlayerAlienMode net pid data w
    = (Done tt,
       let w1 := set_players
                   (Registry.update pid
                      (set_alien (get data "isAlienMode") planet) (players w))
                   w in
       fanned net (playerAlienMode pid (get data "isAlienMode") planet)
              "Error sending to player " (players w1) w1)).
  { unfold updatePlayerAlienMode. rewrite bind_gets, Hp, bind_modify.
    apply broadcastToAll_fans. }
  assert (Hout : outbox w'
     = outbox w
       ++ deliveries net (playerAlienMode pid (get data "isAlienMode") planet)
                     (players w)).
  { unfold w', exec. rewrite Hrun. cbn [snd players outbox set_players fanned].
    now rewrite deliveries_after_update. }
  unfold w', result, exec in *. rewrite Hrun in *.
  cbn [fst snd players outbox set_players fanned] in *.
  split; [reflexivity|].
  split; [now rewrite RegistryFacts.get_update, Hp|].
  split; [exact Hout|]. split.
  - intros Hdel. rewrite Hout. apply in_or_app. right. unfold deliveries.
    change (socket p, playerAlienMode pid (get data "isAlienMode") planet)
      with ((fun e : string * Player =>
               (socket (snd e),
                playerAlienMode pid (get data "isAlienMode") planet)) (pid, p)).
    apply in_map, filter_In. split; [now apply RegistryFacts.get_In | assumption].
  - intros w0 H0. unfold updatePlayerAlienMode. now rewrite bind_gets, H0.
Qed.

Lemma alienMode_is_stored_and_announced_witness :
  Registry.get "A" (players two_players) = Some player_A
  /\ Registry.get "A"
       (players (exec (updatePlayerAlienMode all_open "A" landing) two_players))
     = Some (set_alien (get landing "isAlienMode")
               (if truthy (get landing "planetId")
                then get landing "planetId" else VNull) player_A).
Proof.
  assert (H : Registry.get "A" (players two_players) = Some player_A)
    by (vm_compute; reflexivity).
  split; [exact H|].
  exact (proj1 (proj2 (@alienMode_is_stored_and_announced
                         all_open "A" landing two_players player_A H))).
Defined.

(** X13: A [planetDestroyed] message is relayed to every registered session whose
    socket takes it exactly when its planet id is truthy; the frame names the
    sender and the planet.  The server keeps no record of it and does not ask
    whether the sender or the planet is known. *)
Theorem planetDestroyed_is_relayed_unchecked net pid planetId w :
  let w' := exec (handlePlanetDestruction net pid planetId) w in
  result (handlePlanetDestruction net pid planetId) w = Done tt
  /\ players w' = players w
  /\ outbox w'
     = outbox w
       ++ (if truthy planetId
           then deliveries net (planetDestroyed pid planetId) (players w)
           else []).
Proof.
  unfold result, exec, handlePlanetDestruction.
  destruct (truthy planetId); cbn [negb].
  - change (VObj _) with (planetDestroyed pid planetId).
    rewrite broadcastToAll_fans. now repeat split.
  - cbn. now rewrite app_nil_r.
Qed.

(** ** Leaving *)

(** X7: The [close] and the [error] handler never throw; each removes the entry
    of its own id and leaves every other session's record and the palette
    counter as they were. *)
Theorem departure_removes_only_its_id net pid w :
  result (onClose net pid) w = Done tt
  /\ result (onError pid) w = Done tt
  /\ Registry.get pid (players (exec (onClose net pid) w)) = None
  /\ Registry.get pid (players (exec (onError pid) w)) = None
  /\ (forall k, k <> pid ->
      Registry.get k (players (exec (onClose net pid) w))
      = Registry.get k (players w)
      /\ Registry.get k (players (exec (onError pid) w))
         = Registry.get k (players w))
  /\ nextColorIndex (exec (onClose net pid) w) = nextColorIndex w
  /\ nextColorIndex (exec (onError pid) w) = nextColorIndex w.
Proof.
  unfold result, exec, onClose, onError.
  erewrite bind_Done by apply broadcastToAll_fans.
  unfold bind, console_error, modify, set_players, fanned.
  cbn [fst snd players nextColorIndex].
  repeat split; try apply RegistryFacts.get_delete;
    now apply RegistryFacts.get_delete_other, not_eq_sym.
Qed.

(** ** What can end the process *)

(** X18: No message, close, error or tick lets an exception out of its handler,
    whatever the transports do: of the callbacks, only the connection handler
    can throw. *)
Theorem only_a_connection_can_throw net now w :
  (forall pid message, result (handle net now (Message pid message)) w = Done tt)
  /\ (forall pid, result (handle net now (Close pid)) w = Done tt)
  /\ (forall pid, result (handle net now (Error pid)) w = Done tt)
  /\ result (handle net now Tick) w = Done tt.
Proof.
  split; [intros; apply caught_and_logged|].
  split; [intros pid; apply (onClose_removes_and_announces net pid w)|].
  split; [reflexivity|].
  cbn [handle]. unfold result. now rewrite syncGameState_runs.
Qed.

(** ** The palette *)

Lemma get_set_other k pid p (r : Registry.t) :
  k <> pid -> Registry.get k (Registry.set pid p r) = Registry.get k r.
Proof.
  intros Hne. induction r as [|[k0 p0] r IH]; simpl.
  - destruct (String.eqb_spec k pid); [congruence | reflexivity].
  - destruct (String.eqb_spec pid k0) as [->|Hne0]; simpl.
    + destruct (String.eqb_spec k k0); [congruence | reflexivity].
    + now rewrite IH.
Qed.

Lemma onMessage_keeps_session net pid message now :
  preserves (same_session pid now) (onMessage net pid message now).
Proof.
  unfold onMessage, updatePlayerPosition, updatePlayerAlienMode,
    handleBombPlacement, handlePlanetDestruction, broadcastChat.
  walk (same_session_refl pid now) (same_session_trans (pid:=pid) (now:=now))
       ltac:(apply (@update_keeps_session pid now); intro; now repeat split)
       (@talk_keeps_session pid now unit).
Qed.

Lemma tick_keeps_records net now w k q :
  Registry.get k (players (exec (syncGameState net now) w)) = Some q ->
  exists q0, Registry.get k (players w) = Some q0
             /\ color q = color q0 /\ id q = id q0.
Proof.
  unfold exec. rewrite syncGameState_runs.
  destruct (sweepTimeouts_returns net now w) as (w1 & Hrun & Hplayers & _).
  unfold exec. rewrite Hrun. cbn [snd players set_players fanned].
  rewrite get_refreshStationary, Hplayers. intros Hq.
  destruct (Registry.get k (survivors now (players w) (players w))) as [q0|] eqn:Hq0;
    [|discriminate].
  exists q0. split; [now apply survivors_Some in Hq0|].
  cbn [option_map] in Hq. injection Hq as <-.
  match goal with |- context [if ?c then _ else _] => destruct c end;
    now split.
Qed.

Lemma palette_is_a_string n : (n < 8)%nat -> exists c, palette n = VStr c.
Proof.
  intros Hn. unfold palette.
  do 8 (destruct n as [|n]; [eexists; reflexivity|]). lia.
Qed.

Lemma handle_keeps_records net now ev w :
  ((nextColorIndex w < 8)%nat
   /\ forall k q, Registry.get k (players w) = Some q -> well_kept k q) ->
  (nextColorIndex (exec (handle net now ev) w) < 8)%nat
  /\ forall k q, Registry.get k (players (exec (handle net now ev) w)) = Some q ->
                 well_kept k q.
Proof.
  intros [Hn Hcol].
  destruct ev as [ws username colour generated|pid message|pid|pid|]; cbn [handle].
  - destruct (connection_state net ws username colour generated now w)
      as [Hreg Hcounter].
    rewrite Hreg, Hcounter. split.
    + destruct (supplied colour); [assumption|]. now apply Nat.mod_upper_bound.
    + intros k q. destruct (String.eqb_spec k (connection_id username generated))
        as [->|Hne].
      * rewrite RegistryFacts.get_set. intros [= <-]. split; [reflexivity|].
        cbn [color]. unfold assigned_color.
        destruct colour as [c|]; [destruct (truthy (VStr c))|];
          eauto using palette_is_a_string.
      * rewrite get_set_other by assumption. apply Hcol.
  - destruct (onMessage_leaves_others net pid message now w) as (Hoth & Hids & Hc).
    unfold exec. rewrite Hc. split; [assumption|].
    intros k q Hq. destruct (String.eqb_spec k pid) as [->|Hne].
    + destruct (Registry.get pid (players w)) as [p|] eqn:Hp.
      * destruct (onMessage_keeps_session net pid message now w Hp)
          as (p' & Hp' & Hid & Hcolor & _).
        rewrite Hp' in Hq. injection Hq as <-.
        destruct (Hcol pid p Hp) as [Hi [c Hs]].
        split; [congruence | exists c; congruence].
      * apply RegistryFacts.get_None_notin in Hp. rewrite <- Hids in Hp.
        apply RegistryFacts.get_None_notin in Hp. congruence.
    + rewrite Hoth in Hq by assumption. eapply Hcol, Hq.
  - unfold exec, onClose. erewrite bind_Done by apply broadcastToAll_fans.
    cbn [snd modify players nextColorIndex set_players fanned].
    split; [assumption|]. intros k q Hq. apply get_delete_Some in Hq. eauto.
  - cbn. split; [assumption|]. intros k q Hq.
    apply (@get_delete_Some k pid q (players w)) in Hq. eauto.
  - split.
    + unfold exec. rewrite syncGameState_runs.
      destruct (sweepTimeouts_returns net now w) as (w1 & Hrun & _ & Hc).
      unfold exec. rewrite Hrun. cbn [snd nextColorIndex set_players fanned].
      now rewrite Hc.
    + intros k q Hq. apply tick_keeps_records in Hq.
      destruct Hq as (q0 & Hq0 & Hcolor & Hid).
      destruct (Hcol k q0 Hq0) as [Hi [c Hs]].
      split; [congruence | exists c; congruence].
Qed.

Lemma run_keeps_records schedule : forall w,
  ((nextColorIndex w < 8)%nat
   /\ forall k q, Registry.get k (players w) = Some q -> well_kept k q) ->
  (nextColorIndex (run schedule w) < 8)%nat
  /\ forall k q, Registry.get k (players (run schedule w)) = Some q ->
                 well_kept k q.
Proof.
  induction schedule as [|[[net now] ev] rest IH]; intros w Hw; [exact Hw|].
  cbn [run]. pose proof (@handle_keeps_records net now ev w Hw) as Hstep.
  unfold exec in Hstep.
  destruct (handle net now ev w) as [[[]|] w1]; [now apply IH | exact Hstep].
Qed.

Lemma initial_keeps_records :
  (nextColorIndex initial < 8)%nat
  /\ forall k q, Registry.get k (players initial) = Some q -> well_kept k q.
Proof. split; [cbn; lia | discriminate]. Qed.

(** X20: In every state that the server reaches from its start, whatever the
    clients and the transports do, the palette counter is below 8 and the
    colour of every registered session is a string: the palette lookup never
    yields [undefined]. *)
Theorem palette_counter_stays_in_range schedule :
  (nextColorIndex (run schedule initial) < 8)%nat
  /\ forall k q, Registry.get k (players (run schedule initial)) = Some q ->
                 exists c, color q = VStr c.
Proof.
  destruct (@run_keeps_records schedule initial initial_keeps_records)
    as [Hn Hkept].
  split; [exact Hn|]. intros k q Hq. apply (Hkept k q Hq).
Qed.

(** X22: In every state that the server reaches from its start, a record is
    registered under the id it carries: the key of the map and the [id] field
    never come apart, so the [id] inside a roster or snapshot entry is the key
    it stands under. *)
Theorem registered_id_is_its_key schedule k q :
  Registry.get k (players (run schedule initial)) = Some q -> id q = k.
Proof.
  intros Hq.
  destruct (@run_keeps_records schedule initial initial_keeps_records)
    as [_ Hkept].
  apply (Hkept k q Hq).
Qed.

Lemma registered_id_is_its_key_witness :
  Registry.get "guest" (players (run eight_connects initial))
  = Some (newcomer "guest" (VStr "#F012BE") 0 8)
  /\ id (newcomer "guest" (VStr "#F012BE") 0 8) = "guest".
Proof.
  assert (H : Registry.get "guest" (players (run eight_connects initial))
              = Some (newcomer "guest" (VStr "#F012BE") 0 8))
    by (vm_compute; reflexivity).
  split; [exact H|].
  exact (@registered_id_is_its_key eight_connects "guest" _ H).
Defined.

(** X21: Connections that leave the colour to the server advance the counter by
    one each, modulo 8: after [k] of them it stands at [(n + k) mod 8], so the
    ninth newcomer is given the colour of the first. *)
Theorem palette_is_dealt_round_robin schedule : forall w,
  (nextColorIndex w < 8)%nat ->
  Forall plain_connect schedule ->
  nextColorIndex (run schedule w)
  = Nat.modulo (nextColorIndex w + List.length schedule) 8.
Proof.
  induction schedule as [|[[net now] ev] rest IH]; intros w Hn Hall.
  - cbn [run List.length]. rewrite Nat.add_0_r. symmetry.
    now apply Nat.mod_small.
  - inversion Hall as [|? ? Hhead Hrest]; subst.
    destruct ev as [ws username colour generated| | | |]; try contradiction.
    destruct Hhead as [Hplain Hok]. cbn [run handle].
    rewrite (@connection_runs net ws username colour generated now w Hok).
    rewrite IH;
      [|cbn [nextColorIndex]; rewrite Hplain; now apply Nat.mod_upper_bound
       |assumption].
    cbn [nextColorIndex List.length]. rewrite Hplain.
    change (List.length playerColors) with 8%nat.
    rewrite Nat.Div0.add_mod_idemp_l. f_equal. lia.
Qed.

Lemma palette_is_dealt_round_robin_witness :
  (nextColorIndex initial < 8)%nat
  /\ Forall plain_connect eight_connects
  /\ nextColorIndex (run eight_connects initial)
     = Nat.modulo (nextColorIndex initial + List.length eight_connects) 8.
Proof.
  assert (H1 : (nextColorIndex initial < 8)%nat) by (cbn; lia).
  assert (H2 : Forall plain_connect eight_connects).
  { repeat constructor. }
  repeat (split; [assumption|]).
  exact (@palette_is_dealt_round_robin eight_connects initial H1 H2).
Defined.

(** ** More on [sanitize] *)

Lemma replace_all_absent c by_ s :
  has_char c s = false -> replace_all c by_ s = s.
Proof.
  induction s as [|a s IH]; cbn [has_char replace_all]; [reflexivity|].
  destruct (Ascii.eqb a c); cbn [orb]; [discriminate|].
  intros H. now rewrite IH.
Qed.

Lemma string_length_app (s1 s2 : string) :
  String.length (s1 ++ s2) = (String.length s1 + String.length s2)%nat.
Proof. induction s1 as [|a s1 IH]; simpl; [reflexivity|]. now rewrite IH. Qed.

Lemma ascii_lt_is_not_gt a : Ascii.eqb a "<" = true -> Ascii.eqb a ">" = false.
Proof. intros H. apply Ascii.eqb_eq in H. now subst. Qed.

(** X23: [sanitize] leaves a message without angle brackets as it is, [&]
    included; applied twice it gives what it gives once; and it lengthens a
    message by three characters for each bracket, so that a relayed message of
    200 characters can hold up to 800. *)
Theorem sanitize_is_idempotent_and_grows text :
  (has_char "<" text = false -> has_char ">" text = false ->
   sanitize text = text)
  /\ sanitize (sanitize text) = sanitize text
  /\ String.length (sanitize text)
     = (String.length text
        + 3 * (count_char "<" text + count_char ">" text))%nat
  /\ (String.length (sanitize text) <= 4 * String.length text)%nat.
Proof.
  assert (Hsame : forall s, has_char "<" s = false -> has_char ">" s = false ->
                            sanitize s = s).
  { intros s Hlt Hgt. unfold sanitize.
    rewrite (replace_all_absent "<" "&lt;" s Hlt).
    now apply replace_all_absent. }
  assert (Hlen : String.length (sanitize text)
                 = (String.length text
                    + 3 * (count_char "<" text + count_char ">" text))%nat).
  { rewrite sanitize_escapes.
    induction text as [|a text IH]; [reflexivity|].
    cbn [spec_escape count_char String.length].
    destruct (Ascii.eqb a "<") eqn:Elt.
    - rewrite (ascii_lt_is_not_gt a Elt), string_length_app, IH.
      cbn [String.length]. lia.
    - destruct (Ascii.eqb a ">") eqn:Egt.
      + rewrite string_length_app, IH. cbn [String.length]. lia.
      + cbn [String.length]. rewrite IH. lia. }
  split; [apply Hsame|]. split; [apply Hsame; apply sanitize_leaves_no_bracket|].
  split; [exact Hlen|]. rewrite Hlen.
  assert (Hcount : (count_char "<" text + count_char ">" text
                    <= String.length text)%nat).
  { clear. induction text as [|a text IH]; cbn [count_char String.length]; [lia|].
    destruct (Ascii.eqb a "<") eqn:Elt.
    - rewrite (ascii_lt_is_not_gt a Elt). lia.
    - destruct (Ascii.eqb a ">"); lia. }
  lia.
Qed.

(** ** From a message to the next snapshot *)

Lemma accepted_update_runs net pid data now w p :
  Registry.get pid (players w) = Some p ->
  type_is data "updatePosition" = true ->
  isValidPosition (get data "position")
  && isValidRotation (get data "rotation") = true ->
  Registry.get pid (players (exec (onMessage net pid (Some data) now) w))
  = Some (set_pose (get data "position") (get data "rotation") now
                   (set_lastUpdate now p)).
Proof.
  intros Hp Htype Hok. destruct (type_is_object _ _ Htype) as [props ->].
  apply andb_true_iff in Hok. destruct Hok as [Hpos Hrot].
  assert (Hrun :
    onMessage net pid (Some (VObj props)) now w
    = (Done tt,
       let touched :=
         set_players (Registry.update pid (set_lastUpdate now) (players w)) w in
       set_players
         (Registry.update pid
            (set_pose (get (VObj props) "position")
                      (get (VObj props) "rotation") now)
            (players touched)) touched)).
  { unfold onMessage. apply try_catch_Done. rewrite bind_modify, Htype.
    unfold updatePlayerPosition. apply try_catch_Done. rewrite bind_gets.
    cbn [players set_players]. rewrite RegistryFacts.get_update, Hp.
    cbn [option_map]. now rewrite Hpos, Hrot. }
  unfold exec. rewrite Hrun. cbn [snd players set_players].
  now rewrite !RegistryFacts.get_update, Hp.
Qed.

(** X14: A position update that the server accepts is what the next snapshot
    shows.  When a session whose id is not [__proto__] sends an
    [updatePosition] that passes both checks and [syncGameState] runs within
    30 s of it, that run adds to the outbox one [gameState] frame for every
    session left by its sweep whose socket takes it; the sender's id is a key
    of the frame's [players] map, and the entry under it carries the
    payload's [position] and [rotation] as they were sent.  The sender itself
    gets the frame when its socket takes it. *)
Theorem accepted_pose_is_in_the_next_snapshot net net' pid data now now' w p :
  NoDup (Registry.ids (players w)) ->
  Registry.get pid (players w) = Some p ->
  pid <> "__proto__" ->
  type_is data "updatePosition" = true ->
  isValidPosition (get data "position")
  && isValidRotation (get data "rotation") = true ->
  now' - now <= timeout ->
  let w1 := exec (onMessage net pid (Some data) now) w in
  let swept := exec (sweepTimeouts net' now') w1 in
  let w2 := exec (syncGameState net' now') w1 in
  exists frame,
    outbox w2 = outbox swept ++ deliveries net' frame (players swept)
    /\ get frame "type" = VStr "gameState"
    /\ In pid (keys (get frame "players"))
    /\ get (get (get frame "players") pid) "position" = get data "position"
    /\ get (get (get frame "players") pid) "rotation" = get data "rotation"
    /\ get (get (get frame "players") pid) "id" = VStr (id p)
    /\ (isOpen net' (socket p) = true -> sendThrows net' (socket p) = false ->
        In frame (received (socket p) w2)).
Proof.
  intros Hnd Hp Hpid Htype Hok Hsoon w1 swept w2.
  pose proof (@accepted_update_runs net pid data now w p Hp Htype Hok) as Hp1.
  fold w1 in Hp1.
  assert (Hnd1 : NoDup (Registry.ids (players w1))).
  { destruct (onMessage_keeps_ids net pid (Some data) now w) as [Hids _].
    unfold w1, exec. now rewrite Hids. }
  destruct (sweepTimeouts_returns net' now' w1) as (w3 & Hrun & Hplayers & _).
  assert (Hswept : swept = w3) by (unfold swept, exec; now rewrite Hrun).
  assert (Hnd2 : NoDup (Registry.ids (players swept))).
  { rewrite Hswept, Hplayers. now apply survivors_NoDup. }
  assert (Hp2 : Registry.get pid (players swept)
                = Some (set_pose (get data "position") (get data "rotation") now
                                 (set_lastUpdate now p))).
  { rewrite Hswept, Hplayers.
    apply (@survivors_of_registry now' (players w1) pid _ Hnd1 Hp1).
    unfold timely. cbn [snd lastUpdate set_pose]. lia. }
  assert (Hentry : get (snapshot (players swept)) pid
                   = snapshotEntry
                       (set_pose (get data "position") (get data "rotation") now
                                 (set_lastUpdate now p))).
  { rewrite snapshot_entry by assumption. rewrite Hp2.
    apply String.eqb_neq in Hpid. now rewrite Hpid. }
  assert (Hout : outbox w2
                 = outbox swept
                   ++ deliveries net' (gameStateData (players swept) now')
                        (players swept)).
  { unfold w2, exec. rewrite syncGameState_runs. reflexivity. }
  exists (gameStateData (players swept) now').
  split; [exact Hout|]. split; [reflexivity|].
  change (get (gameStateData (players swept) now') "players")
    with (snapshot (players swept)).
  split.
  { unfold snapshot, keys. rewrite In_keys_fold. right. split; [|assumption].
    apply RegistryFacts.get_In in Hp2. apply (in_map fst) in Hp2. exact Hp2. }
  rewrite Hentry. repeat (split; [reflexivity|]).
  intros Hopen Hsend. unfold received. rewrite Hout.
  apply in_map_iff. exists (socket p, gameStateData (players swept) now').
  split; [reflexivity|]. apply filter_In. split; [|apply Nat.eqb_refl].
  apply in_or_app. right. unfold deliveries. apply in_map_iff.
  eexists. split; [|apply filter_In; split;
                    [exact (RegistryFacts.get_In _ _ Hp2)|]].
  - reflexivity.
  - unfold delivered. cbn [snd socket set_pose set_lastUpdate].
    now rewrite Hopen, Hsend.
Qed.

Lemma accepted_pose_is_in_the_next_snapshot_witness :
  NoDup (Registry.ids (players two_players))
  /\ Registry.get "A" (players two_players) = Some player_A
  /\ "A" <> "__proto__"
  /\ type_is move_to_123 "updatePosition" = true
  /\ isValidPosition (get move_to_123 "position")
     && isValidRotation (get move_to_123 "rotation") = true
  /\ 100 - 50 <= timeout
  /\ exists frame,
       outbox (exec (syncGameState all_open 100)
                 (exec (onMessage all_open "A" (Some move_to_123) 50)
                       two_players))
       = outbox (exec (sweepTimeouts all_open 100)
                   (exec (onMessage all_open "A" (Some move_to_123) 50)
                         two_players))
         ++ deliveries all_open frame
              (players (exec (sweepTimeouts all_open 100)
                          (exec (onMessage all_open "A" (Some move_to_123) 50)
                                two_players)))
       /\ get (get (get frame "players") "A") "position"
          = get move_to_123 "position"
       /\ In frame
            (received (socket player_A)
               (exec (syncGameState all_open 100)
                  (exec (onMessage all_open "A" (Some move_to_123) 50)
                        two_players))).
Proof.
  assert (H1 : NoDup (Registry.ids (players two_players))).
  { vm_compute. repeat constructor; simpl; intuition discriminate. }
  assert (H2 : Registry.get "A" (players two_players) = Some player_A)
    by (vm_compute; reflexivity).
  assert (H0 : "A" <> "__proto__") by discriminate.
  assert (H3 : type_is move_to_123 "updatePosition" = true) by reflexivity.
  assert (H4 : isValidPosition (get move_to_123 "position")
               && isValidRotation (get move_to_123 "rotation") = true)
    by reflexivity.
  assert (H5 : 100 - 50 <= timeout) by (unfold timeout; lia).
  repeat (split; [assumption|]).
  destruct (@accepted_pose_is_in_the_next_snapshot
              all_open all_open "A" move_to_123 50 100 two_players player_A
              H1 H2 H0 H3 H4 H5)
    as (frame & Hout & _ & _ & Hpos & _ & _ & Hrecv).
  exists frame. split; [exact Hout|]. split; [exact Hpos|].
  apply Hrecv; reflexivity.
Defined.

(** ** Joining and leaving *)

Lemma delete_after_set pid p (r : Registry.t) :
  Registry.get pid r = None -> Registry.delete pid (Registry.set pid p r) = r.
Proof.
  induction r as [|[k q] r IH]; cbn [Registry.get Registry.set].
  - intros _. cbn. now rewrite String.eqb_refl.
  - destruct (pid =s k) eqn:E; [discriminate|]. intros H.
    cbn [Registry.delete filter fst]. rewrite E. cbn [negb].
    f_equal. now apply IH.
Qed.

(** X6: A session that connects under an id nobody holds and then closes leaves
    the registry exactly as it was before it came; the palette counter is not
    given back. *)
Theorem connect_then_close_restores_registry
    net net' ws username colour generated now w :
  Registry.get (connection_id username generated) (players w) = None ->
  let w1 := exec (connection net ws username colour generated now) w in
  let w2 := exec (onClose net' (connection_id username generated)) w1 in
  players w2 = players w
  /\ nextColorIndex w2
     = (if supplied colour then nextColorIndex w
        else Nat.modulo (nextColorIndex w + 1) 8).
Proof.
  intros Hfree w1 w2.
  destruct (connection_state net ws username colour generated now w)
    as [Hreg Hcounter].
  fold w1 in Hreg, Hcounter.
  unfold w2, exec, onClose.
  erewrite bind_Done by apply broadcastToAll_fans.
  cbn [snd modify players nextColorIndex set_players fanned].
  rewrite Hreg, Hcounter. split; [now apply delete_after_set | reflexivity].
Qed.

Lemma connect_then_close_restores_registry_witness :
  Registry.get (connection_id (Some "C") "") (players two_players) = None
  /\ players (exec (onClose first_closed (connection_id (Some "C") ""))
                   (exec (connection all_open 3 (Some "C") None "" 7)
                         two_players))
     = players two_players.
Proof.
  assert (H : Registry.get (connection_id (Some "C") "") (players two_players)
              = None) by reflexivity.
  split; [exact H|].
  exact (proj1 (@connect_then_close_restores_registry
                  all_open first_closed 3 (Some "C") None "" 7 two_players H)).
Defined.

(** ** The client's chat and the server's guard *)

Lemma substring_0_length n : forall s,
  (String.length (substring 0 n s) <= n)%nat.
Proof.
  induction n as [|n IH]; intros [|a s]; cbn; try lia.
  specialize (IH s). lia.
Qed.

Lemma substring_0_nonempty n a s : substring 0 (S n) (String a s) <> "".
Proof. cbn. discriminate. Qed.

(** X24: What the client sends as chat always passes the server's guard: the text
    of a frame that [sendChatMessage] hands over is the trimmed input cut to
    its first 200 characters, it is not empty, and [broadcastChat] relays it
    for every registered sender. *)
Theorem client_chat_passes_the_server_guard trim connected message frame :
  sendChatMessage trim connected message = Some frame ->
  exists text,
    frame = VObj [("type", VStr "chat"); ("message", VStr text)]
    /\ text = substring 0 200 (trim message)
    /\ text <> ""
    /\ (String.length text <= 200)%nat
    /\ chat_relayed text = true
    /\ forall net pid w player,
         Registry.get pid (players w) = Some player ->
         outbox (exec (broadcastChat net pid (get frame "message")) w)
         = outbox w ++ deliveries net (chatData pid player text) (players w).
Proof.
  unfold sendChatMessage. destruct connected; cbn [negb]; [|discriminate].
  destruct (negb (truthy (VStr message)) || (trim message =s "")) eqn:E;
    [discriminate|].
  intros [= <-]. exists (substring 0 200 (trim message)).
  apply orb_false_iff in E. destruct E as [_ E]. apply String.eqb_neq in E.
  assert (Hne : substring 0 200 (trim message) <> "").
  { destruct (trim message) as [|a s]; [congruence | apply substring_0_nonempty]. }
  pose proof (substring_0_length 200 (trim message)) as Hlen.
  assert (Hok : chat_relayed (substring 0 200 (trim message)) = true).
  { unfold chat_relayed. apply andb_true_iff. split.
    - apply negb_true_iff. now apply String.eqb_neq.
    - apply Z.leb_le. lia. }
  repeat (split; [easy|]).
  intros net pid w player Hp. cbn [get lookup]. cbn -[substring].
  unfold exec.
  rewrite (@broadcastChat_runs net pid _ w player Hp), Hok. reflexivity.
Qed.

Lemma client_chat_passes_the_server_guard_witness :
  sendChatMessage spec_trim true "  hi <b>  "
  = Some (VObj [("type", VStr "chat"); ("message", VStr "hi <b>")])
  /\ exists text,
       VObj [("type", VStr "chat"); ("message", VStr "hi <b>")]
       = VObj [("type", VStr "chat"); ("message", VStr text)]
       /\ text = substring 0 200 (spec_trim "  hi <b>  ")
       /\ text <> ""
       /\ (String.length text <= 200)%nat
       /\ chat_relayed text = true
       /\ forall net pid w player,
            Registry.get pid (players w) = Some player ->
            outbox (exec (broadcastChat net pid
                            (get (VObj [("type", VStr "chat");
                                        ("message", VStr "hi <b>")])
                                 "message")) w)
            = outbox w ++ deliveries net (chatData pid player text) (players w).
Proof.
  assert (H : sendChatMessage spec_trim true "  hi <b>  "
              = Some (VObj [("type", VStr "chat"); ("message", VStr "hi <b>")]))
    by reflexivity.
  split; [exact H|].
  exact (@client_chat_passes_the_server_guard spec_trim true "  hi <b>  " _ H).
Defined.

(** ** Where frames go *)

Section OpenOnly.

Variable net : Net.

Lemma open_refl w : sent_to_open_only net w w.
Proof. exists []. split; [now rewrite app_nil_r | constructor]. Qed.

Lemma open_trans w1 w2 w3 :
  sent_to_open_only net w1 w2 -> sent_to_open_only net w2 w3 ->
  sent_to_open_only net w1 w3.
Proof.
  intros (e1 & H1 & F1) (e2 & H2 & F2). exists (e1 ++ e2). split.
  - now rewrite H2, H1, app_assoc.
  - apply Forall_app. now split.
Qed.

Lemma modify_keeps_outbox f :
  (forall w, outbox (f w) = outbox w) ->
  preserves (sent_to_open_only net) (modify f).
Proof.
  intros Hf w. exists []. cbn [snd modify].
  split; [now rewrite Hf, app_nil_r | constructor].
Qed.

Lemma console_keeps_outbox line :
  preserves (sent_to_open_only net) (console_error line).
Proof. apply modify_keeps_outbox. reflexivity. Qed.

Lemma open_send s data :
  preserves (sent_to_open_only net)
    (if isOpen net s then socket_send net s data else ret tt).
Proof.
  intros w. destruct (isOpen net s) eqn:Hopen; [|apply open_refl].
  unfold socket_send. destruct (sendThrows net s); [apply open_refl|].
  exists [(s, data)]. split; [reflexivity|]. now repeat constructor.
Qed.

Lemma open_send_and c s data :
  preserves (sent_to_open_only net)
    (if c && isOpen net s then socket_send net s data else ret tt).
Proof.
  destruct c; cbn [andb]; [apply open_send | intros w; apply open_refl].
Qed.

Lemma open_send_caught s data line :
  preserves (sent_to_open_only net)
    (if isOpen net s
     then try_catch (socket_send net s data) (console_error line)
     else ret tt).
Proof.
  intros w. destruct (isOpen net s) eqn:Hopen; [|apply open_refl].
  unfold try_catch, socket_send. destruct (sendThrows net s).
  - apply console_keeps_outbox.
  - exists [(s, data)]. split; [reflexivity|]. now repeat constructor.
Qed.

End OpenOnly.

Ltac walk_open net :=
  repeat match goal with
  | |- preserves _ (ret _) => apply preserves_ret; exact (open_refl net)
  | |- preserves _ throw => apply preserves_throw; exact (open_refl net)
  | |- preserves _ (gets _) => apply preserves_gets; exact (open_refl net)
  | |- preserves _ (modify _) => apply modify_keeps_outbox; intro; reflexivity
  | |- preserves _ (console_error _) => apply console_keeps_outbox
  | |- preserves _ (broadcastToAll _ _) => unfold broadcastToAll
  | |- preserves _ (if isOpen _ _ then socket_send _ _ _ else ret tt) =>
      apply open_send
  | |- preserves _ (if _ && isOpen _ _ then socket_send _ _ _ else ret tt) =>
      apply open_send_and
  | |- preserves _ (if isOpen _ _ then try_catch (socket_send _ _ _) _
                    else ret tt) =>
      apply open_send_caught
  | |- preserves _ (try_catch _ _) =>
      apply preserves_try_catch; [exact (@open_trans net) | |]
  | |- preserves _ (bind _ _) =>
      apply preserves_bind; [exact (@open_trans net) | | intro]
  | |- preserves _ (players_forEach _) =>
      apply preserves_players_forEach;
        [exact (open_refl net) | exact (@open_trans net) | intros ? ?]
  | |- preserves _ (if _ then _ else _) => apply preserves_if
  | |- preserves _ (match ?x with _ => _ end) => destruct x
  end.

(** X19: Whatever the callback and whatever the transports do, every frame that a
    handler hands to a socket goes to a socket that is open at that moment:
    the server never calls [send] on a socket whose [readyState] is not
    [OPEN], and it takes nothing back from the outbox. *)
Theorem frames_go_to_open_sockets_only net now ev w :
  exists extra,
    outbox (exec (handle net now ev) w) = outbox w ++ extra
    /\ Forall (fun d => isOpen net (fst d) = true) extra.
Proof.
  assert (H : preserves (sent_to_open_only net) (handle net now ev)).
  { destruct ev as [ws username colour generated|pid message|pid|pid|];
      cbn [handle];
      unfold connection, assign_color, next_palette_color, sendToPlayer,
        broadcastToOthers, onMessage, updatePlayerPosition,
        updatePlayerAlienMode, handleBombPlacement, handlePlanetDestruction,
        broadcastChat, onClose, onError, syncGameState, sweepTimeouts,
        sendGameState;
      walk_open net. }
  exact (H w).
Qed.

(** ** [broadcastToOthers] under failures *)

Lemma forEach_others_prefix net pid data (l : Registry.t) : forall w,
  let run_l := forEach (fun e =>
      (fun (player : Player) (k : string) =>
         if negb (k =s pid) && isOpen net (socket player)
         then socket_send net (socket player) data
         else ret tt) (snd e) (fst e)) l w in
  players (snd run_l) = players w
  /\ console (snd run_l) = console w
  /\ (exists n, outbox (snd run_l)
                = outbox w ++ firstn n (deliveries_to_others net pid data l))
  /\ (fst run_l = Done tt ->
      outbox (snd run_l) = outbox w ++ deliveries_to_others net pid data l)
  /\ (fst run_l = Thrown <->
      exists e, In e l /\ fst e <> pid /\ isOpen net (socket (snd e)) = true
                /\ sendThrows net (socket (snd e)) = true).
Proof.
  induction l as [|[k q] l IH]; intros w; cbn zeta.
  - cbn. repeat split; try (exists O); try (now rewrite app_nil_r);
      try discriminate. now intros (e & [] & _).
  - cbn [forEach fst snd]. unfold deliveries_to_others. cbn [filter fst snd].
    destruct (negb (k =s pid) && isOpen net (socket q)) eqn:Hguard.
    + apply andb_true_iff in Hguard. destruct Hguard as [Hk Hopen].
      apply negb_true_iff, String.eqb_neq in Hk.
      destruct (sendThrows net (socket q)) eqn:Hthrow.
      * erewrite bind_Thrown by (unfold socket_send; rewrite Hthrow; reflexivity).
        cbn [fst snd]. repeat split; try (exists O; cbn; now rewrite app_nil_r);
          try discriminate.
        exists (k, q). cbn. now repeat split; auto.
      * erewrite bind_Done by (unfold socket_send; rewrite Hthrow; reflexivity).
        match goal with |- context [forEach ?cb l ?w1] =>
          destruct (IH w1) as (Hp & Hc & [n Hn] & Hd & Ht) end.
        cbn zeta in Hp, Hc, Hn, Hd, Ht.
        cbn [players console outbox] in Hp, Hc, Hn, Hd.
        split; [exact Hp|]. split; [exact Hc|].
        split; [exists (S n); cbn [map firstn fst snd];
                rewrite Hn, <- app_assoc; reflexivity|].
        split; [intros Hdone; cbn [map fst snd];
                rewrite (Hd Hdone), <- app_assoc; reflexivity|].
        rewrite Ht. split.
        -- intros (e & Hin & He). exists e. split; [now right | exact He].
        -- intros (e & [<-|Hin] & Hne & Ho & Hs); [cbn in Hs; congruence|].
           exists e. now repeat split.
    + rewrite bind_ret.
      destruct (IH w) as (Hp & Hc & Hn & Hd & Ht). cbn zeta in Hp, Hc, Hn, Hd, Ht.
      repeat (split; [assumption|]). rewrite Ht. split.
      * intros (e & Hin & He). exists e. split; [now right | exact He].
      * intros (e & [<-|Hin] & Hne & Ho & Hs).
        -- cbn [fst snd] in Hne, Ho. apply String.eqb_neq in Hne.
           rewrite Hne, Ho in Hguard. discriminate.
        -- exists e. now repeat split.
Qed.

(** X3: [broadcastToOthers] walks the registry in order and sends to every entry
    under another id whose socket is open, until a send throws: the frames
    delivered are an initial stretch of that list, nothing is logged and the
    registry is untouched.  It returns exactly when no such send throws, and
    has then reached them all; it throws exactly when some such socket
    throws. *)
Theorem broadcastToOthers_delivers_an_initial_stretch net pid data w :
  let w' := exec (broadcastToOthers net pid data) w in
  players w' = players w
  /\ console w' = console w
  /\ (exists n, outbox w'
                = outbox w
                  ++ firstn n (deliveries_to_others net pid data (players w)))
  /\ (result (broadcastToOthers net pid data) w = Done tt ->
      outbox w' = outbox w ++ deliveries_to_others net pid data (players w))
  /\ (result (broadcastToOthers net pid data) w = Thrown <->
      exists e, In e (players w) /\ fst e <> pid
                /\ isOpen net (socket (snd e)) = true
                /\ sendThrows net (socket (snd e)) = true).
Proof. exact (forEach_others_prefix net pid data (players w) w). Qed.

(** ** [broadcastToAll] under failures *)

(** X2: [broadcastToAll] never throws and never touches the registry: walking the
    registry in order, it delivers the frame to every session whose socket is
    open and takes the send, writes one console line for each open socket
    whose [send] throws, and goes on to the next either way. *)
Theorem broadcastToAll_goes_on_after_a_failure net data w :
  let w' := exec (broadcastToAll net data) w in
  result (broadcastToAll net data) w = Done tt
  /\ players w' = players w
  /\ nextColorIndex w' = nextColorIndex w
  /\ outbox w' = outbox w ++ deliveries net data (players w)
  /\ console w'
     = console w ++ complaints net "Error sending to player " (players w)
  /\ (forall k q, Registry.get k (players w) = Some q ->
      delivered net q = true -> In (socket q, data) (outbox w')).
Proof.
  unfold result, exec. rewrite broadcastToAll_fans.
  cbn [fst snd players nextColorIndex outbox console fanned].
  repeat split. intros k q Hq Hdel. apply in_or_app. right. unfold deliveries.
  change (socket q, data)
    with ((fun e : string * Player => (socket (snd e), data)) (k, q)).
  apply in_map, filter_In. split; [now apply RegistryFacts.get_In | assumption].
Qed.
